(** * SmartCook front end: a shallow embedding of the two client variants

    The repository holds two overlapping browser clients for one recipe
    recommendation service:

    - [src/unnamed/part_000] (app.js): the class-based client
      ([RecipeRecommender] with [init] and [suggest], the page handlers and
      a string-building [displayResults]);
    - [src/script.js]: the procedural client ([suggestRecipes] and a
      DOM-building [displayResults]).

    JavaScript values are embedded as an inductive type, the page, the
    recommender instance and the network log as an explicit world record,
    and every function that can throw as a computation in a state monad with
    completions.  Each handler is modelled as one uninterrupted run: the
    points where the source awaits are sequenced, other events do not
    interleave. *)

From Stdlib Require Import ZArith List Bool Lia.
From Stdlib Require Import Strings.Ascii Strings.String.
From Stdlib Require Import Numbers.DecimalString Numbers.DecimalZ.
Import ListNotations.

Local Open Scope string_scope.
Local Open Scope Z_scope.

(** ** Text *)

(** JavaScript text is kept as the bytes of its UTF-8 encoding.  Markup
    literals of the source are written with an apostrophe wherever the source
    has a double quote, and [html] puts the double quotes back; no markup
    literal of the source contains an apostrophe of its own. *)

Definition dquote : ascii := ascii_of_nat 34.
Definition squote : ascii := ascii_of_nat 39.

Fixpoint html (s : string) : string :=
  match s with
  | EmptyString => EmptyString
  | String c r => String (if Ascii.eqb c squote then dquote else c) (html r)
  end.

Fixpoint concat_all (l : list string) : string :=
  match l with
  | [] => ""
  | s :: r => s ++ concat_all r
  end.

Definition string_of_Z (n : Z) : string := NilZero.string_of_int (Z.to_int n).

(** *** [String.prototype.trim]

    [trim] strips the WhiteSpace and LineTerminator code points of ECMAScript
    from both ends.  On the UTF-8 bytes each of them is a sequence of one,
    two or three bytes. *)

Definition white_space_code_points : list Z :=
  [ 0x9; 0xA; 0xB; 0xC; 0xD; 0x20; 0xA0; 0x1680;
    0x2000; 0x2001; 0x2002; 0x2003; 0x2004; 0x2005; 0x2006; 0x2007;
    0x2008; 0x2009; 0x200A; 0x2028; 0x2029; 0x202F; 0x205F; 0x3000; 0xFEFF ].

(** UTF-8 encoding of a code point of the basic plane. *)
Definition utf8 (cp : Z) : list Z :=
  if cp <? 0x80 then [cp]
  else if cp <? 0x800 then [0xC0 + cp / 64; 0x80 + cp mod 64]
  else [0xE0 + cp / 4096; 0x80 + (cp / 64) mod 64; 0x80 + cp mod 64].

Definition byte_of (c : ascii) : Z := Z.of_nat (nat_of_ascii c).

Fixpoint string_of_bytes (l : list Z) : string :=
  match l with
  | [] => EmptyString
  | b :: r => String (ascii_of_nat (Z.to_nat b)) (string_of_bytes r)
  end.

Fixpoint bytes_eqb (a b : list Z) : bool :=
  match a, b with
  | [], [] => true
  | x :: a', y :: b' => (x =? y) && bytes_eqb a' b'
  | _, _ => false
  end.

Definition is_space (bytes : list Z) : bool :=
  existsb (fun cp => bytes_eqb (utf8 cp) bytes) white_space_code_points.

(** Strips the white space at the head of [s]; with [backwards], [s] is a
    reversed string and a character's bytes come last byte first. *)
Fixpoint strip_head (backwards : bool) (s : string) : string :=
  let seq l := is_space (if backwards then List.rev l else l) in
  match s with
  | EmptyString => EmptyString
  | String a r1 =>
      if seq [byte_of a] then strip_head backwards r1
      else match r1 with
           | EmptyString => s
           | String b r2 =>
               if seq [byte_of a; byte_of b] then strip_head backwards r2
               else match r2 with
                    | EmptyString => s
                    | String c r3 =>
                        if seq [byte_of a; byte_of b; byte_of c]
                        then strip_head backwards r3
                        else s
                    end
           end
  end.

Fixpoint reverse (s : string) : string :=
  match s with
  | EmptyString => EmptyString
  | String c r => reverse r ++ String c EmptyString
  end.

Definition trimStart (s : string) : string := strip_head false s.
Definition trimEnd (s : string) : string := reverse (strip_head true (reverse s)).
Definition trim (s : string) : string := trimEnd (trimStart s).

(** A string that is empty or made of white space only. *)
Inductive blank : string -> Prop :=
| blank_empty : blank ""
| blank_space (cp : Z) (s : string) :
    In cp white_space_code_points -> blank s ->
    blank (string_of_bytes (utf8 cp) ++ s).

(** ** JavaScript values

    The values that reach this program are the results of [response.json()],
    so JSON values, together with [undefined] (the result of reading an absent
    property) and the built-in function objects that a property read on a
    string primitive can return.  An object is the list of its own
    properties.

    A Number is one of two things.  [JInt] carries a safe integer (of
    magnitude at most 2^53 - 1), which prints in plain decimal.  [JFloat]
    carries any other finite Number, a fraction or a larger magnitude, given
    by the text it prints as (such as [87.5] or [1e+21]); the program only
    prints Numbers, tests their truth and compares them with 0, and such a
    Number is never 0.  JSON has no [NaN] and no infinity. *)

Definition max_safe_integer : Z := 9007199254740991.

Definition is_safe_integer (n : Z) : bool :=
  (- max_safe_integer <=? n) && (n <=? max_safe_integer).

Record SafeInt : Type := mkSafeInt {
  int_value : Z;
  int_safe : is_safe_integer int_value = true
}.

Definition saturate (n : Z) : Z :=
  if n <? - max_safe_integer then - max_safe_integer
  else if max_safe_integer <? n then max_safe_integer
  else n.

(** The safe integer [n]; beyond the safe range, the nearest bound. *)
Definition int (n : Z) : SafeInt.
Proof.
  refine (mkSafeInt (saturate n) _).
  unfold saturate, is_safe_integer.
  destruct (n <? - max_safe_integer) eqn:Low; [reflexivity |].
  destruct (max_safe_integer <? n) eqn:High; [reflexivity |].
  rewrite (Z.leb_antisym n (- max_safe_integer)), Low.
  rewrite (Z.leb_antisym max_safe_integer n), High.
  reflexivity.
Defined.

#[warnings="-register-all"]
Inductive JsVal : Type :=
| JUndefined
| JNull
| JBool (b : bool)
| JInt (n : SafeInt)
| JFloat (text : string)
| JStr (s : string)
| JArr (items : list JsVal)
| JObj (fields : list (string * JsVal))
| JNative (name : string).

(** A numeric literal of the program or of an example, and the [length] of
    an array or a string, which JavaScript keeps within the safe range. *)
Definition JNum (n : Z) : JsVal := JInt (int n).

(** An exception object: its constructor name and its [message]. *)
Record Exn : Type := mkExn { exn_name : string; exn_message : string }.

(** [new Error(msg)] *)
Definition Error (msg : string) : Exn := mkExn "Error" msg.
Definition TypeError (msg : string) : Exn := mkExn "TypeError" msg.

Inductive Completion (A : Type) : Type :=
| Normal (a : A)
| Throw (e : Exn).
Arguments Normal {A} a.
Arguments Throw {A} e.

(** [fields] has an own property [k]. *)
Definition has_key (k : string) (fields : list (string * JsVal)) : bool :=
  existsb (fun field => String.eqb k (fst field)) fields.

(** The TypeError of a ToPrimitive that finds no primitive (V8's message). *)
Definition cannot_convert : Exn :=
  TypeError "Cannot convert object to primitive value".

(** [texts.join(",")], on elements already converted: the first element
    that could not be converted throws. *)
Fixpoint join_texts (texts : list (Completion string)) : Completion string :=
  match texts with
  | [] => Normal ""
  | [text] => text
  | text :: others =>
      match text with
      | Throw e => Throw e
      | Normal head =>
          match join_texts others with
          | Throw e => Throw e
          | Normal tail => Normal (head ++ "," ++ tail)
          end
      end
  end.

(** ToString, as a template literal applies it to [${...}] and [new Error]
    to its argument.  An object goes through ToPrimitive: its [toString] is
    [Object.prototype.toString] unless an own property [toString] shadows
    it; an own property of a JSON object is never callable, and [valueOf]
    returns no primitive, so a shadowed object throws a TypeError.  An array
    joins the ToString of its elements with a comma, [null] and [undefined]
    elements giving the empty string.  A function object prints in the V8
    form. *)
Fixpoint to_string (v : JsVal) : Completion string :=
  match v with
  | JUndefined => Normal "undefined"
  | JNull => Normal "null"
  | JBool true => Normal "true"
  | JBool false => Normal "false"
  | JInt n => Normal (string_of_Z (int_value n))
  | JFloat text => Normal text
  | JStr s => Normal s
  | JArr items =>
      join_texts (map (fun x => match x with
                                | JUndefined | JNull => Normal ""
                                | _ => to_string x
                                end) items)
  | JObj fields =>
      if has_key "toString" fields then Throw cannot_convert
      else Normal "[object Object]"
  | JNative name => Normal ("function " ++ name ++ "() { [native code] }")
  end.

(** ToBoolean *)
Definition truthy (v : JsVal) : bool :=
  match v with
  | JUndefined | JNull => false
  | JBool b => b
  | JInt n => negb (int_value n =? 0)
  | JStr s => negb (String.eqb s "")
  | JFloat _ | JArr _ | JObj _ | JNative _ => true
  end.

(** [a === b] where one side is a primitive literal, the only use the
    program makes of it: objects, arrays and functions equal no primitive. *)
Definition strict_eq (a b : JsVal) : bool :=
  match a, b with
  | JUndefined, JUndefined => true
  | JNull, JNull => true
  | JBool x, JBool y => Bool.eqb x y
  | JInt x, JInt y => int_value x =? int_value y
  | JFloat x, JFloat y => String.eqb x y
  | JStr x, JStr y => String.eqb x y
  | _, _ => false
  end.

(** [a || b] on values *)
Definition js_or (a b : JsVal) : JsVal := if truthy a then a else b.

Fixpoint lookup (k : string) (fields : list (string * JsVal)) : JsVal :=
  match fields with
  | [] => JUndefined
  | (k', v) :: r => if String.eqb k k' then v else lookup k r
  end.

(** The [length] of a string counts UTF-16 code units: one for each
    character of the basic plane, two for each character beyond it. *)
Fixpoint utf16_length (s : string) : Z :=
  match s with
  | EmptyString => 0
  | String c r =>
      let b := Z.of_nat (nat_of_ascii c) in
      (if b <? 128 then 1 else if b <? 192 then 0 else if b <? 240 then 1 else 2)
      + utf16_length r
  end.

(** Property read [v.k].  Exact for the property names this program reads
    ([recipes], [status], [models_loaded], [success], [error], [title],
    [match], [used_ingredients], [missing_ingredients], [used], [missing],
    [directions], [link], [length], [map], [forEach]): a read on [null] or
    [undefined] throws, an object gives its own property, an array and a
    string have [length] and the methods of their prototypes
    ([String.prototype] has a [match] and a [link]). *)
Definition get_prop (v : JsVal) (k : string) : Completion JsVal :=
  match v with
  | JUndefined =>
      Throw (TypeError ("Cannot read properties of undefined (reading '" ++ k ++ "')"))
  | JNull =>
      Throw (TypeError ("Cannot read properties of null (reading '" ++ k ++ "')"))
  | JObj fields => Normal (lookup k fields)
  | JArr items =>
      if String.eqb k "length" then Normal (JNum (Z.of_nat (List.length items)))
      else if String.eqb k "map" || String.eqb k "forEach" then Normal (JNative k)
      else Normal JUndefined
  | JStr s =>
      if String.eqb k "length" then Normal (JNum (utf16_length s))
      else if String.eqb k "match" || String.eqb k "link" then Normal (JNative k)
      else Normal JUndefined
  | JBool _ | JInt _ | JFloat _ | JNative _ => Normal JUndefined
  end.

(** ** The page, the recommender instance and the network *)

(** A [fetch] request.  The body is the value handed to [JSON.stringify]. *)
Record Request : Type := mkRequest {
  req_url : string;
  req_method : string;
  req_headers : list (string * string);
  req_body : option JsVal
}.

(** A response: its status line and what [response.json()] settles to. *)
Record Response : Type := mkResponse {
  status : Z;
  statusText : string;
  json : Completion JsVal
}.

(** [response.ok]: the status is in the range 200 to 299. *)
Definition ok (r : Response) : bool := (200 <=? status r) && (status r <=? 299).

Inductive FetchOutcome : Type :=
| Resolved (r : Response)
| Rejected (e : Exn).

(** The remote service: it answers a request knowing every request made so
    far, the current one first. *)
Definition Network : Type := list Request -> FetchOutcome.

(** [class RecipeRecommender] *)
Record RecipeRecommender : Type := mkRecommender {
  apiUrl : string;
  initialized : bool;
  googleDriveUrl : string
}.

(** An element created by [document.createElement('div')]. *)
Record Div : Type := mkDiv { className : string; div_innerHTML : string }.

Record World : Type := mkWorld {
  network : Network;
  requests : list Request;            (* the requests made, latest first *)
  recommender : RecipeRecommender;    (* the global instance of app.js *)
  input_value : string;               (* #ingredients-input .value *)
  results_innerHTML : string;         (* #results: the markup last assigned *)
  results_appended : list Div;        (* #results: the children appended since *)
  button_disabled : bool;             (* #suggest-btn .disabled *)
  button_textContent : string;        (* #suggest-btn .textContent *)
  alerts : list string;               (* the alert dialogs shown, latest first *)
  console : list string               (* the console lines, latest first *)
}.

(** A computation reads and writes the world and completes normally or
    throws; what it wrote before throwing stays written. *)
Definition M (A : Type) : Type := World -> Completion A * World.

Definition ret {A} (a : A) : M A := fun w => (Normal a, w).
Definition throw {A} (e : Exn) : M A := fun w => (Throw e, w).
Definition lift {A} (c : Completion A) : M A := fun w => (c, w).

Definition bind {A B} (m : M A) (k : A -> M B) : M B :=
  fun w => match m w with
           | (Normal a, w') => k a w'
           | (Throw e, w') => (Throw e, w')
           end.

Definition bindC {A B} (c : Completion A) (k : A -> Completion B) : Completion B :=
  match c with
  | Normal a => k a
  | Throw e => Throw e
  end.

Notation "'let*' x ':=' c 'in' k" := (bind c (fun x => k))
  (at level 10, x name, c at level 100, k at level 200).
Notation "c ';;' k" := (bind c (fun _ => k))
  (at level 100, k at level 200, right associativity).
Notation "'let?' x ':=' c 'in' k" := (bindC c (fun x => k))
  (at level 10, x name, c at level 100, k at level 200).

(** [try { body } catch (error) { handler error }] *)
Definition try_catch {A} (body : M A) (handler : Exn -> M A) : M A :=
  fun w => match body w with
           | (Normal a, w') => (Normal a, w')
           | (Throw e, w') => handler e w'
           end.

(** [try { body } finally { final }]: [final] runs on either completion of
    [body], and a throw of its own replaces that completion. *)
Definition try_finally {A} (body : M A) (final : M unit) : M A :=
  fun w => let (c, w') := body w in
           match final w' with
           | (Normal _, w'') => (c, w'')
           | (Throw e, w'') => (Throw e, w'')
           end.

Definition get_world : M World := fun w => (Normal w, w).

Definition set_requests (l : list Request) : M unit := fun w =>
  (Normal tt, mkWorld (network w) l (recommender w) (input_value w)
     (results_innerHTML w) (results_appended w) (button_disabled w)
     (button_textContent w) (alerts w) (console w)).

Definition set_initialized (b : bool) : M unit := fun w =>
  let r := recommender w in
  (Normal tt, mkWorld (network w) (requests w)
     (mkRecommender (apiUrl r) b (googleDriveUrl r)) (input_value w)
     (results_innerHTML w) (results_appended w) (button_disabled w)
     (button_textContent w) (alerts w) (console w)).

(** [resultsEl.innerHTML = markup] replaces every child of the element. *)
Definition set_results_innerHTML (markup : string) : M unit := fun w =>
  (Normal tt, mkWorld (network w) (requests w) (recommender w) (input_value w)
     markup [] (button_disabled w)
     (button_textContent w) (alerts w) (console w)).

(** [resultsDiv.appendChild(card)] *)
Definition appendChild (card : Div) : M unit := fun w =>
  (Normal tt, mkWorld (network w) (requests w) (recommender w) (input_value w)
     (results_innerHTML w) (results_appended w ++ [card]) (button_disabled w)
     (button_textContent w) (alerts w) (console w)).

Definition set_button_disabled (b : bool) : M unit := fun w =>
  (Normal tt, mkWorld (network w) (requests w) (recommender w) (input_value w)
     (results_innerHTML w) (results_appended w) b
     (button_textContent w) (alerts w) (console w)).

Definition set_button_textContent (s : string) : M unit := fun w =>
  (Normal tt, mkWorld (network w) (requests w) (recommender w) (input_value w)
     (results_innerHTML w) (results_appended w) (button_disabled w)
     s (alerts w) (console w)).

Definition alert (msg : string) : M unit := fun w =>
  (Normal tt, mkWorld (network w) (requests w) (recommender w) (input_value w)
     (results_innerHTML w) (results_appended w) (button_disabled w)
     (button_textContent w) (msg :: alerts w) (console w)).

Definition console_log (msg : string) : M unit := fun w =>
  (Normal tt, mkWorld (network w) (requests w) (recommender w) (input_value w)
     (results_innerHTML w) (results_appended w) (button_disabled w)
     (button_textContent w) (alerts w) (msg :: console w)).

(** [console.error(label, error)] *)
Definition console_error (label : string) (error : Exn) : M unit :=
  console_log (label ++ " " ++ exn_name error ++ ": " ++ exn_message error).

(** [await fetch(url, options)]: the request is logged and the service
    answers; a rejected promise is a throw at the [await]. *)
Definition fetch (req : Request) : M Response :=
  let* w := get_world in
  let log := req :: requests w in
  set_requests log ;;
  match network w log with
  | Resolved r => ret r
  | Rejected e => throw e
  end.

Definition json_headers : list (string * string) :=
  [("Content-Type", "application/json")].

Definition nl : string := String (ascii_of_nat 10) EmptyString.

(** The lines of a multi-line template literal, joined by line feeds. *)
Fixpoint lines (l : list string) : string :=
  match l with
  | [] => ""
  | [s] => s
  | s :: r => s ++ nl ++ lines r
  end.

(** [v.map(...)] or [v.forEach(...)] reaches the elements of an array; on
    [null] or [undefined] the property read throws, and on any other value
    of the model the property is not a function. *)
Definition elements (expr method : string) (v : JsVal) : Completion (list JsVal) :=
  match v with
  | JArr items => Normal items
  | JUndefined | JNull => let? _ := get_prop v method in Normal []
  | _ => Throw (TypeError (expr ++ "." ++ method ++ " is not a function"))
  end.

(** [items.map(i => item `${i}`)]: the elements are converted to text in
    turn, and the first that cannot be converted throws. *)
Fixpoint map_text (item : string -> string) (items : list JsVal)
  : Completion (list string) :=
  match items with
  | [] => Normal []
  | i :: rest =>
      let? text := to_string i in
      let? others := map_text item rest in
      Normal (item text :: others)
  end.

(** ** The class-based client (app.js) *)

Module App.

(** [constructor()]: the API base follows [window.location.hostname]. *)
Definition new_RecipeRecommender (hostname : string) : RecipeRecommender :=
  mkRecommender
    (if String.eqb hostname "localhost" then "http://localhost:5000/api" else "/api")
    false
    "https://drive.google.com/drive/folders/1poHpksILFm9uIvBfJLogGzqbyUSQTFrt?usp=drive_link".

Definition health_request (r : RecipeRecommender) : Request :=
  mkRequest (apiUrl r ++ "/health") "GET" [] None.

Definition download_request (r : RecipeRecommender) : Request :=
  mkRequest (apiUrl r ++ "/download-models") "POST" json_headers
    (Some (JObj [("drive_url", JStr (googleDriveUrl r))])).

Definition suggest_request (r : RecipeRecommender) (ingredients : string) : Request :=
  mkRequest (apiUrl r ++ "/suggest") "POST" json_headers
    (Some (JObj [("ingredients", JStr ingredients)])).

(** [data.status === 'ok' && data.models_loaded], as a condition *)
Definition reports_ready (data : JsVal) : Completion bool :=
  let? status := get_prop data "status" in
  if strict_eq status (JStr "ok")
  then let? models_loaded := get_prop data "models_loaded" in
       Normal (truthy models_loaded)
  else Normal false.

Definition download_failed : string := "Erro desconhecido ao baixar modelos".

(** [async init()] *)
Definition init : M bool :=
  let* w := get_world in
  if initialized (recommender w) then ret true
  else
    try_catch
      (let* response := fetch (health_request (recommender w)) in
       let* data := lift (json response) in
       let* ready := lift (reports_ready data) in
       if (ready : bool) then
         set_initialized true ;;
         console_log "✅ Sistema inicializado com sucesso!" ;;
         ret true
       else
         console_log "📥 Baixando modelos do Google Drive..." ;;
         let* response := fetch (download_request (recommender w)) in
         if negb (ok response) then
           throw (Error ("Erro ao baixar modelos: " ++ statusText response))
         else
           let* data := lift (json response) in
           let* success := lift (get_prop data "success") in
           if truthy success then
             set_initialized true ;;
             console_log "✅ Modelos baixados e sistema inicializado!" ;;
             ret true
           else
             let* error := lift (get_prop data "error") in
             let* message :=
               lift (to_string (js_or error (JStr download_failed))) in
             throw (Error message))
      (fun error =>
         console_error "Erro na inicialização:" error ;;
         throw error).

(** [if (!this.initialized) await this.init();] *)
Definition ensure_initialized : M unit :=
  let* w := get_world in
  if negb (initialized (recommender w)) then init ;; ret tt else ret tt.

(** [async suggest(ingredients)] *)
Definition suggest (ingredients : string) : M JsVal :=
  ensure_initialized ;;
  let* w := get_world in
  try_catch
    (let* response := fetch (suggest_request (recommender w) ingredients) in
     if negb (ok response) then
       throw (Error ("HTTP " ++ string_of_Z (status response) ++ ": "
                       ++ statusText response))
     else
       let* data := lift (json response) in
       lift (get_prop data "recipes"))
    (fun error =>
       console_error "Erro na sugestão:" error ;;
       throw error).

(** *** [displayResults] *)

Definition no_results : string :=
  html "<p class='no-results'>Nenhuma receita encontrada. Tente outros ingredientes!</p>".

(** [list?.map(i => `<li class="ingredient kind">${i}</li>`).join('') || fallback] *)
Definition ingredient_items (expr kind fallback : string) (list : JsVal)
  : Completion string :=
  match list with
  | JUndefined | JNull => Normal fallback
  | _ =>
      let? items := elements expr "map" list in
      let? mapped :=
        map_text (fun i => html "<li class='ingredient " ++ kind ++ html "'>"
                             ++ i ++ "</li>") items in
      let joined := concat_all mapped in
      Normal (if String.eqb joined "" then fallback else joined)
  end.

Definition used_fallback : string := "<li>Nenhum ingrediente principal</li>".
Definition missing_fallback : string := "<li>Nada!</li>".

(** [recipe.directions ? `...${recipe.directions}...` : ''] *)
Definition directions_block (directions : JsVal) : Completion string :=
  if truthy directions then
    let? text := to_string directions in
    Normal (html (lines [""; "                <div class='directions'>";
                         "                    <h3>📝 Modo de preparo:</h3>";
                         "                    <p>"])
            ++ text
            ++ html (lines ["</p>"; "                </div>"; "            "]))
  else Normal "".

(** [recipe.link ? `<a href="${recipe.link}" ...>...</a>` : ''] *)
Definition link_block (link : JsVal) : Completion string :=
  if truthy link then
    let? text := to_string link in
    Normal (html "<a href='" ++ text
            ++ html "' target='_blank' class='recipe-link'>🔗 Ver receita completa</a>")
  else Normal "".

(** The template literal of a card, with the text of its six slots. *)
Definition card_template (title match_ used missing directions link : string)
  : string :=
  html (lines [""; "        <div class='recipe-card'>";
               "            <h2 class='recipe-title'>"])
  ++ title
  ++ html (lines ["</h2>"; "            <span class='match-percentage'>"])
  ++ match_
  ++ html (lines ["% compatível</span>";
                  "            ";
                  "            <div class='ingredients-list'>";
                  "                <div class='ingredients-section'>";
                  "                    <h3>✅ Você tem:</h3>";
                  "                    <ul>";
                  "                        "])
  ++ used
  ++ html (lines [""; "                    </ul>";
                  "                </div>";
                  "                ";
                  "                <div class='ingredients-section'>";
                  "                    <h3>🛒 Precisa comprar:</h3>";
                  "                    <ul>";
                  "                        "])
  ++ missing
  ++ html (lines [""; "                    </ul>";
                  "                </div>";
                  "            </div>";
                  "            ";
                  "            "])
  ++ directions
  ++ html (lines [""; "            "; "            "])
  ++ link
  ++ html (lines [""; "        </div>"; "    "]).

(** The arrow function mapped over [recipes]: the slots are evaluated and
    converted to text from left to right. *)
Definition recipe_card (recipe : JsVal) : Completion string :=
  let? title_value := get_prop recipe "title" in
  let? title := to_string title_value in
  let? match_value := get_prop recipe "match" in
  let? match_ := to_string match_value in
  let? used_ingredients := get_prop recipe "used_ingredients" in
  let? used :=
    ingredient_items "recipe.used_ingredients?" "has" used_fallback
      used_ingredients in
  let? missing_ingredients := get_prop recipe "missing_ingredients" in
  let? missing :=
    ingredient_items "recipe.missing_ingredients?" "missing" missing_fallback
      missing_ingredients in
  let? directions_value := get_prop recipe "directions" in
  let? directions := directions_block directions_value in
  let? link_value := get_prop recipe "link" in
  let? link := link_block link_value in
  Normal (card_template title match_ used missing directions link).

Fixpoint map_cards (recipes : list JsVal) : Completion (list string) :=
  match recipes with
  | [] => Normal []
  | recipe :: rest =>
      let? card := recipe_card recipe in
      let? cards := map_cards rest in
      Normal (card :: cards)
  end.

(** The markup [displayResults] assigns to the results area, as a function
    of its argument alone. *)
Definition render (recipes : JsVal) : Completion string :=
  let? empty :=
    (if negb (truthy recipes) then Normal true
     else let? length := get_prop recipes "length" in
          Normal (strict_eq length (JNum 0))) in
  if (empty : bool) then Normal no_results
  else
    let? items := elements "recipes" "map" recipes in
    let? cards := map_cards items in
    Normal (concat_all cards).

(** [function displayResults(recipes)] *)
Definition displayResults (recipes : JsVal) : M unit :=
  let* markup := lift (render recipes) in
  set_results_innerHTML markup.

(** *** The page handlers *)

(** The [click] listener of [#suggest-btn]. *)
Definition on_click : M unit :=
  let* w := get_world in
  let ingredients := trim (input_value w) in
  if negb (truthy (JStr ingredients)) then
    alert "Por favor, digite alguns ingredientes!"
  else
    try_finally
      (try_catch
         (set_button_disabled true ;;
          set_button_textContent "Buscando..." ;;
          set_results_innerHTML (html "<p class='loading'>Analisando ingredientes...</p>") ;;
          let* recipes := suggest ingredients in
          displayResults recipes)
         (fun error =>
            set_results_innerHTML
              (html "<p class='error'>Erro: " ++ exn_message error ++ "</p>")))
      (set_button_disabled false ;;
       set_button_textContent "Sugerir Receitas").

(** [buttonEl.click()]: a disabled button dispatches no click. *)
Definition button_click : M unit :=
  let* w := get_world in
  if button_disabled w then ret tt else on_click.

(** The [keypress] listener of [#ingredients-input]. *)
Definition on_keypress (key : string) : M unit :=
  let* w := get_world in
  if String.eqb key "Enter" && negb (button_disabled w) then button_click
  else ret tt.

(** The [DOMContentLoaded] listener, up to the registration of the two
    listeners above. *)
Definition on_DOMContentLoaded : M unit :=
  try_catch
    (set_results_innerHTML (html "<p class='loading'>Inicializando sistema...</p>") ;;
     init ;;
     set_button_disabled false ;;
     set_results_innerHTML
       (html "<p class='success'>Sistema pronto! Digite seus ingredientes acima.</p>"))
    (fun error =>
       set_results_innerHTML
         (html "<p class='error'>Sistema indisponível: " ++ exn_message error ++ "</p>") ;;
       set_button_disabled true).

End App.

(** ** The procedural client (script.js) *)

Module Script.

Definition API_URL : string := "https://sua-api.onrender.com".

Definition suggest_request (input : string) : Request :=
  mkRequest (API_URL ++ "/suggest") "POST" json_headers
    (Some (JObj [("ingredients", JStr input)])).

Definition no_results : string :=
  html "<p class='no-results'>Nenhuma receita encontrada. Tente outros ingredientes!</p>".

(** [list.map(ing => `<li class="ingredient kind">mark ${ing}</li>`).join('')] *)
Definition ingredient_items (expr kind mark : string) (list : JsVal)
  : Completion string :=
  let? items := elements expr "map" list in
  let? mapped :=
    map_text (fun ing => html "<li class='ingredient " ++ kind ++ html "'>"
                           ++ mark ++ " " ++ ing ++ "</li>") items in
  Normal (concat_all mapped).

Definition directions_block (directions : JsVal) : Completion string :=
  if truthy directions then
    let? text := to_string directions in
    Normal (html "<div class='directions'><p>📝 <strong>Modo de preparo:</strong> "
            ++ text ++ "</p></div>")
  else Normal "".

Definition link_block (link : JsVal) : Completion string :=
  if truthy link then
    let? text := to_string link in
    Normal (html "<a href='" ++ text
            ++ html "' target='_blank' class='recipe-link'>🔗 Ver receita completa</a>")
  else Normal "".

Definition card_template (title match_ used missing directions link : string)
  : string :=
  html (lines [""; "            <h2 class='recipe-title'>"])
  ++ title
  ++ html " <span class='match-percentage'>"
  ++ match_
  ++ html (lines ["%</span></h2>";
                  "            ";
                  "            <div class='ingredients-grid'>";
                  "                <div class='ingredients-used'>";
                  "                    <h3>✅ Você tem:</h3>";
                  "                    <ul>";
                  "                        "])
  ++ used
  ++ html (lines [""; "                    </ul>";
                  "                </div>";
                  "                ";
                  "                <div class='ingredients-missing'>";
                  "                    <h3>❌ Faltando:</h3>";
                  "                    <ul>";
                  "                        "])
  ++ missing
  ++ html (lines [""; "                    </ul>";
                  "                </div>";
                  "            </div>";
                  "            ";
                  "            "])
  ++ directions
  ++ html (lines [""; "            "; "            "])
  ++ link
  ++ html (lines [""; "        "]).

(** The markup assigned to [recipeCard.innerHTML]: the slots are evaluated
    and converted to text from left to right. *)
Definition recipe_card (recipe : JsVal) : Completion string :=
  let? title_value := get_prop recipe "title" in
  let? title := to_string title_value in
  let? match_value := get_prop recipe "match" in
  let? match_ := to_string match_value in
  let? used_list := get_prop recipe "used" in
  let? used := ingredient_items "recipe.used" "has" "✔" used_list in
  let? missing_list := get_prop recipe "missing" in
  let? missing := ingredient_items "recipe.missing" "missing" "✖" missing_list in
  let? directions_value := get_prop recipe "directions" in
  let? directions := directions_block directions_value in
  let? link_value := get_prop recipe "link" in
  let? link := link_block link_value in
  Normal (card_template title match_ used missing directions link).

(** The body of [recipes.forEach]: a card is appended as soon as it is
    built, so the cards before a throwing one stay in the page. *)
Fixpoint append_cards (recipes : list JsVal) : M unit :=
  match recipes with
  | [] => ret tt
  | recipe :: rest =>
      let* markup := lift (recipe_card recipe) in
      appendChild (mkDiv "recipe-card" markup) ;;
      append_cards rest
  end.

(** [function displayResults(recipes)] *)
Definition displayResults (recipes : JsVal) : M unit :=
  set_results_innerHTML "" ;;
  let* length := lift (get_prop recipes "length") in
  if strict_eq length (JNum 0) then set_results_innerHTML no_results
  else
    let* items := lift (elements "recipes" "forEach" recipes) in
    append_cards items.

(** [async function suggestRecipes()], the [click] listener. *)
Definition suggestRecipes : M unit :=
  let* w := get_world in
  let input := input_value w in
  if negb (truthy (JStr (trim input))) then
    alert "Por favor, digite alguns ingredientes!"
  else
    try_catch
      (set_results_innerHTML (html "<p class='loading'>Buscando receitas...</p>") ;;
       let* response := fetch (suggest_request input) in
       if negb (ok response) then throw (Error "Erro ao buscar receitas")
       else
         let* data := lift (json response) in
         let* recipes := lift (get_prop data "recipes") in
         displayResults recipes)
      (fun error =>
         console_error "Erro:" error ;;
         set_results_innerHTML
           (html "<p class='error'>Erro ao buscar receitas: "
            ++ exn_message error ++ "</p>")).

End Script.

(** ** Worlds and values used in the statements *)

Definition answer (body : JsVal) : Response := mkResponse 200 "OK" (Normal body).

(** A service whose models are loaded. *)
Definition ready_service : Network := fun _ =>
  Resolved (answer (JObj [("status", JStr "ok"); ("models_loaded", JBool true)])).

(** A service that answers by the path of the latest request. *)
Definition route (health download suggest : FetchOutcome) : Network := fun log =>
  match log with
  | [] => Rejected (TypeError "Failed to fetch")
  | req :: _ =>
      if String.eqb (req_url req) "/api/health" then health
      else if String.eqb (req_url req) "/api/download-models" then download
      else suggest
  end.

Definition pending_health : FetchOutcome :=
  Resolved (answer (JObj [("status", JStr "pending"); ("models_loaded", JBool false)])).

Definition unreachable : FetchOutcome := Rejected (TypeError "Failed to fetch").

Definition refusal : JsVal := JObj [("success", JBool false); ("error", JStr "disk full")].

(** A provisioning answer with status 500 whose body names a reason. *)
Definition download_500 : Response :=
  mkResponse 500 "Internal Server Error" (Normal refusal).

(** A provisioning answer with status 200 whose body refuses. *)
Definition download_refused : Response := answer refusal.

(** A page served from a deployed host, with its button enabled, an empty
    results area and the given query typed in. *)
Definition page (net : Network) (ready : bool) (input : string) : World :=
  let r := App.new_RecipeRecommender "smartcook.example" in
  mkWorld net [] (mkRecommender (apiUrl r) ready (googleDriveUrl r))
    input "" [] false "Sugerir Receitas" [] [].

(** A field that is missing from its object, or [null]. *)
Definition absent (v : JsVal) : Prop := v = JUndefined \/ v = JNull.

Definition is_array (v : JsVal) : bool :=
  match v with
  | JArr _ => true
  | _ => false
  end.

Definition array_or_absent (v : JsVal) : bool :=
  match v with
  | JUndefined | JNull | JArr _ => true
  | _ => false
  end.

(** A value that is neither an object nor an array: [undefined], [null], a
    boolean, a Number, a string or a built-in function. *)
Definition primitive (v : JsVal) : bool :=
  match v with
  | JArr _ | JObj _ => false
  | _ => true
  end.

(** An array of primitives. *)
Definition primitive_items (v : JsVal) : bool :=
  match v with
  | JArr items => forallb primitive items
  | _ => false
  end.

(** An array of primitives, or a field that is absent. *)
Definition primitive_items_or_absent (v : JsVal) : bool :=
  match v with
  | JUndefined | JNull => true
  | JArr items => forallb primitive items
  | _ => false
  end.

(** A recipe object as the class-based client reads it: title, match,
    directions and link are primitives (or absent), and each ingredient
    list is an array of primitives or absent. *)
Definition app_recipe (recipe : JsVal) : Prop :=
  exists fields,
    recipe = JObj fields
    /\ primitive (lookup "title" fields) = true
    /\ primitive (lookup "match" fields) = true
    /\ primitive_items_or_absent (lookup "used_ingredients" fields) = true
    /\ primitive_items_or_absent (lookup "missing_ingredients" fields) = true
    /\ primitive (lookup "directions" fields) = true
    /\ primitive (lookup "link" fields) = true.

(** The clamping to [0,100] that the specification asks of the display; no
    function of the source computes it. *)
Definition spec_clamp (n : Z) : Z := Z.max 0 (Z.min 100 n).

(** A recipe with both ingredient lists, under the field names of either
    client. *)
Definition bolo (match_ : Z) : JsVal :=
  JObj [("title", JStr "Bolo"); ("match", JNum match_);
        ("used_ingredients", JArr [JStr "ovo"]);
        ("missing_ingredients", JArr [JStr "leite"]);
        ("used", JArr [JStr "ovo"]); ("missing", JArr [JStr "leite"])].

(** A recipe with a title and a match only. *)
Definition bare_recipe : JsVal := JObj [("title", JStr "Bolo"); ("match", JNum 80)].

(** A suggestion answer with status 500. *)
Definition suggest_500 : Response :=
  mkResponse 500 "Internal Server Error" (Normal (JObj [("error", JStr "boom")])).

(** A successful suggestion answer whose envelope has no [recipes]. *)
Definition bare_envelope : Response := answer (JObj [("count", JNum 0)]).

(** The page while the click listener of app.js waits for [suggest]. *)
Definition busy (w : World) : World :=
  snd ((set_button_disabled true ;;
        set_button_textContent "Buscando..." ;;
        set_results_innerHTML (html "<p class='loading'>Analisando ingredientes...</p>")) w).

(** The page while the load listener of app.js waits for [init]. *)
Definition starting (w : World) : World :=
  snd (set_results_innerHTML (html "<p class='loading'>Inicializando sistema...</p>") w).

(** The world after a request has been logged. *)
Definition logged (req : Request) (w : World) : World :=
  mkWorld (network w) (req :: requests w) (recommender w) (input_value w)
    (results_innerHTML w) (results_appended w) (button_disabled w)
    (button_textContent w) (alerts w) (console w).

(** The page once the [finally] block of the click listener has run. *)
Definition settled (w : World) : World :=
  snd ((set_button_disabled false ;; set_button_textContent "Sugerir Receitas") w).

(** The page once the [catch] block of the click listener has run. *)
Definition reported (error : Exn) (w : World) : World :=
  snd (set_results_innerHTML
         (html "<p class='error'>Erro: " ++ exn_message error ++ "</p>") w).

(** Two worlds with the same page: input, results area, button and alerts. *)
Definition same_page (w w' : World) : Prop :=
  input_value w' = input_value w
  /\ results_innerHTML w' = results_innerHTML w
  /\ results_appended w' = results_appended w
  /\ button_disabled w' = button_disabled w
  /\ button_textContent w' = button_textContent w
  /\ alerts w' = alerts w.

(** Two worlds with the same service and the same API configuration. *)
Definition same_service (w w' : World) : Prop :=
  network w' = network w
  /\ apiUrl (recommender w') = apiUrl (recommender w)
  /\ googleDriveUrl (recommender w') = googleDriveUrl (recommender w).

(** A recipe object as the procedural client reads it: title, match,
    directions and link are primitives (or absent), and each ingredient
    list is an array of primitives. *)
Definition script_recipe (recipe : JsVal) : Prop :=
  exists fields,
    recipe = JObj fields
    /\ primitive (lookup "title" fields) = true
    /\ primitive (lookup "match" fields) = true
    /\ primitive_items (lookup "used" fields) = true
    /\ primitive_items (lookup "missing" fields) = true
    /\ primitive (lookup "directions" fields) = true
    /\ primitive (lookup "link" fields) = true.

(** A child of the results area holds the card of a recipe. *)
Definition card_of (recipe : JsVal) (child : Div) : Prop :=
  className child = "recipe-card"
  /\ Script.recipe_card recipe = Normal (div_innerHTML child).

(** A healthy service: models loaded, and the given answer to [/suggest]. *)
Definition healthy (suggest : FetchOutcome) : Network :=
  route (Resolved (answer (JObj [("status", JStr "ok"); ("models_loaded", JBool true)])))
    unreachable suggest.

(** A suggestion answer with one recipe, which has every field under the
    names of either client. *)
Definition one_recipe : Response :=
  answer (JObj [("recipes", JArr [bolo 87])]).

(** An answer whose body is not JSON. *)
Definition garbled : Response :=
  mkResponse 200 "OK" (Throw (mkExn "SyntaxError" "Unexpected token < in JSON")).

(** The world with more children appended to the results area. *)
Definition appended_to (children : list Div) (w : World) : World :=
  mkWorld (network w) (requests w) (recommender w) (input_value w)
    (results_innerHTML w) (results_appended w ++ children) (button_disabled w)
    (button_textContent w) (alerts w) (console w).

(** Two worlds that differ in the results area at most. *)
Definition same_but_results (w w' : World) : Prop :=
  network w' = network w
  /\ requests w' = requests w
  /\ recommender w' = recommender w
  /\ input_value w' = input_value w
  /\ button_disabled w' = button_disabled w
  /\ button_textContent w' = button_textContent w
  /\ alerts w' = alerts w
  /\ console w' = console w.

(** A string made of white-space characters only, each given by its bytes
    in order or, with [backwards], last byte first. *)
Inductive spaces (backwards : bool) : string -> Prop :=
| spaces_empty : spaces backwards ""
| spaces_more (cp : Z) (s : string) :
    In cp white_space_code_points -> spaces backwards s ->
    spaces backwards
      (string_of_bytes (if backwards then List.rev (utf8 cp) else utf8 cp) ++ s).

(** A suggestion answer whose one recipe is [null]. *)
Definition null_recipe : Response := answer (JObj [("recipes", JArr [JNull])]).

(** * Properties *)

(** ** Conversion to text *)

Lemma join_texts_error (texts : list (Completion string)) (e : Exn) :
  Forall (fun text => forall e, text = Throw e -> e = cannot_convert) texts ->
  join_texts texts = Throw e -> e = cannot_convert.
Proof.
  induction 1 as [| text others Ht _ IH]; intros E; [discriminate E |].
  cbn in E. destruct others as [| next others]; [exact (Ht e E) |].
  destruct text as [head | e']; [| injection E as <-; exact (Ht _ eq_refl)].
  destruct (join_texts (next :: others)) as [tail | e']; [discriminate E |].
  injection E as <-. apply IH. reflexivity.
Qed.

(** The only error a conversion to text throws is the TypeError of
    ToPrimitive. *)
Fixpoint to_string_error (v : JsVal) :
  forall e, to_string v = Throw e -> e = cannot_convert.
Proof.
  intros e E. destruct v as [| | b | n | text | s | items | fields | name];
    try discriminate E.
  - destruct b; discriminate E.
  - cbn in E. apply (join_texts_error _ e) in E; [exact E |].
    clear E e. induction items as [| x rest IH]; cbn; constructor; [| exact IH].
    pose proof (to_string_error x) as X.
    intros e E. destruct x; try discriminate E; exact (X e E).
  - cbn in E. destruct (has_key "toString" fields); [| discriminate E].
    injection E as <-. reflexivity.
Qed.

Example shadowed_toString_throws :
  to_string (JObj [("toString", JStr "x")]) = Throw cannot_convert
  /\ to_string (JArr [JStr "a"; JObj [("toString", JNull)]]) = Throw cannot_convert
  /\ App.recipe_card
       (JObj [("title", JObj [("toString", JStr "x")]); ("match", JNum 80)])
     = Throw cannot_convert.
Proof. repeat split. Qed.

Example numbers_as_text :
  to_string (JNum 87) = Normal "87"
  /\ to_string (JFloat "87.5") = Normal "87.5"
  /\ to_string (JFloat "1e+21") = Normal "1e+21"
  /\ to_string (JArr [JNum 1; JNull; JArr [JNum 2; JNum 3]; JObj []])
     = Normal "1,,2,3,[object Object]".
Proof. repeat split. Qed.

(** A primitive always converts. *)
Lemma primitive_to_string (v : JsVal) :
  primitive v = true -> exists text, to_string v = Normal text.
Proof.
  destruct v as [| | [] | n | text | s | items | fields | name]; intros H;
    try discriminate H; eexists; reflexivity.
Qed.

(** ** The renderers on the examples of the specification *)

Example render_empty_list : App.render (JArr []) = Normal App.no_results.
Proof. reflexivity. Qed.

Example display_empty_list (w : World) :
  results_innerHTML (snd (Script.displayResults (JArr []) w)) = Script.no_results
  /\ results_appended (snd (Script.displayResults (JArr []) w)) = [].
Proof. split; reflexivity. Qed.

Example card_87 :
  App.recipe_card
    (JObj [("title", JStr "Cake"); ("match", JNum 87);
           ("used_ingredients", JArr [JStr "egg"; JStr "flour"]);
           ("missing_ingredients", JArr [JStr "sugar"])])
  = Normal (App.card_template "Cake" "87"
              (html "<li class='ingredient has'>egg</li><li class='ingredient has'>flour</li>")
              (html "<li class='ingredient missing'>sugar</li>")
              "" "").
Proof. reflexivity. Qed.

(** ** Readiness: [init] *)

Lemma bind_normal {A B} (m : M A) (k : A -> M B) w a w' :
  m w = (Normal a, w') -> bind m k w = k a w'.
Proof. intros H. unfold bind. now rewrite H. Qed.

Lemma bind_throw {A B} (m : M A) (k : A -> M B) w e w' :
  m w = (Throw e, w') -> bind m k w = (Throw e, w').
Proof. intros H. unfold bind. now rewrite H. Qed.

Lemma fetch_resolved req w r :
  network w (req :: requests w) = Resolved r ->
  fetch req w = (Normal r, logged req w).
Proof.
  intros H. unfold fetch, bind, get_world, set_requests. cbn.
  rewrite H. reflexivity.
Qed.

(** C9: once the ready flag is set, [init] returns [true] at once: no
    request is made and the world is left as it was. *)
Theorem init_idempotent_when_ready (w : World) :
  initialized (recommender w) = true ->
  App.init w = (Normal true, w).
Proof.
  intros H. unfold App.init, bind, get_world. cbn. now rewrite H.
Qed.

Lemma init_idempotent_when_ready_witness :
  App.init (page ready_service true "ovo") = (Normal true, page ready_service true "ovo").
Proof. apply init_idempotent_when_ready. reflexivity. Defined.

(** C5: when [/health] answers [status: "ok"] and [models_loaded: true],
    [init] returns [true], sets the ready flag, and the one request it made
    is the health request: the provisioning endpoint is not called. *)
Theorem init_ready_service (w : World) (response : Response) (data : JsVal) :
  initialized (recommender w) = false ->
  network w (App.health_request (recommender w) :: requests w) = Resolved response ->
  json response = Normal data ->
  get_prop data "status" = Normal (JStr "ok") ->
  get_prop data "models_loaded" = Normal (JBool true) ->
  fst (App.init w) = Normal true
  /\ initialized (recommender (snd (App.init w))) = true
  /\ requests (snd (App.init w)) = App.health_request (recommender w) :: requests w.
Proof.
  intros Hinit Hnet Hjson Hstatus Hloaded.
  unfold App.init, App.reports_ready, bind, get_world, try_catch. cbn.
  rewrite Hinit, Hnet. cbn. rewrite Hjson, Hstatus. cbn. rewrite Hloaded. cbn.
  repeat split.
Qed.

Lemma init_ready_service_witness :
  fst (App.init (page ready_service false "ovo")) = Normal true
  /\ initialized (recommender (snd (App.init (page ready_service false "ovo")))) = true
  /\ requests (snd (App.init (page ready_service false "ovo")))
     = [App.health_request (recommender (page ready_service false "ovo"))].
Proof.
  apply (init_ready_service (page ready_service false "ovo")
           (answer (JObj [("status", JStr "ok"); ("models_loaded", JBool true)]))
           (JObj [("status", JStr "ok"); ("models_loaded", JBool true)]));
    reflexivity.
Defined.

(** The service reports not ready when its status is not ["ok"] or its
    [models_loaded] is false. *)
Lemma not_ready_cases (data status models_loaded : JsVal) :
  get_prop data "status" = Normal status ->
  get_prop data "models_loaded" = Normal models_loaded ->
  strict_eq status (JStr "ok") = false \/ truthy models_loaded = false ->
  App.reports_ready data = Normal false.
Proof.
  intros Hs Hm H. unfold App.reports_ready. rewrite Hs. cbn.
  destruct (strict_eq status (JStr "ok")); [| reflexivity].
  rewrite Hm. cbn. destruct H as [H | H]; [discriminate | now rewrite H].
Qed.

(** The run of [init] up to the answer of the provisioning request, when
    the health check said not ready. *)
Lemma init_provisioning (w : World) (r1 r2 : Response) (d1 : JsVal) :
  initialized (recommender w) = false ->
  network w (App.health_request (recommender w) :: requests w) = Resolved r1 ->
  json r1 = Normal d1 ->
  App.reports_ready d1 = Normal false ->
  network w (App.download_request (recommender w)
               :: App.health_request (recommender w) :: requests w) = Resolved r2 ->
  let w2 := logged (App.download_request (recommender w))
              (snd (console_log "📥 Baixando modelos do Google Drive..."
                      (logged (App.health_request (recommender w)) w))) in
  App.init w =
  try_catch
    (if negb (ok r2) then
       throw (Error ("Erro ao baixar modelos: " ++ statusText r2))
     else
       let* data := lift (json r2) in
       let* success := lift (get_prop data "success") in
       if truthy success then
         set_initialized true ;;
         console_log "✅ Modelos baixados e sistema inicializado!" ;;
         ret true
       else
         let* error := lift (get_prop data "error") in
         let* message :=
           lift (to_string (js_or error (JStr App.download_failed))) in
         throw (Error message))
    (fun error => console_error "Erro na inicialização:" error ;; throw error)
    w2.
Proof.
  intros Hinit Hnet1 Hjson1 Hready Hnet2 w2.
  unfold App.init at 1. unfold bind at 1. unfold get_world at 1. cbn iota.
  rewrite Hinit. unfold try_catch.
  rewrite (bind_normal _ _ _ _ _ (fetch_resolved _ _ _ Hnet1)).
  unfold lift at 1. unfold bind at 1. rewrite Hjson1.
  unfold lift at 1. unfold bind at 1. rewrite Hready.
  unfold bind at 1.
  change (console_log "📥 Baixando modelos do Google Drive..."
            (logged (App.health_request (recommender w)) w))
    with (Normal tt, snd (console_log "📥 Baixando modelos do Google Drive..."
            (logged (App.health_request (recommender w)) w))).
  cbn iota.
  assert (Hf : fetch (App.download_request (recommender w))
                 (snd (console_log "📥 Baixando modelos do Google Drive..."
                         (logged (App.health_request (recommender w)) w)))
               = (Normal r2, w2)).
  { apply fetch_resolved. exact Hnet2. }
  rewrite (bind_normal _ _ _ _ _ Hf). reflexivity.
Qed.

(** C6: when [/health] reports not ready and the provisioning request then
    answers successfully with [success: true], [init] returns [true], sets
    the ready flag, and has called the provisioning endpoint exactly once,
    after the health check. *)
Theorem init_provisions_once (w : World) (r1 r2 : Response) (d1 d2 : JsVal) :
  initialized (recommender w) = false ->
  network w (App.health_request (recommender w) :: requests w) = Resolved r1 ->
  json r1 = Normal d1 ->
  App.reports_ready d1 = Normal false ->
  network w (App.download_request (recommender w)
               :: App.health_request (recommender w) :: requests w) = Resolved r2 ->
  ok r2 = true ->
  json r2 = Normal d2 ->
  get_prop d2 "success" = Normal (JBool true) ->
  fst (App.init w) = Normal true
  /\ initialized (recommender (snd (App.init w))) = true
  /\ requests (snd (App.init w))
     = App.download_request (recommender w)
         :: App.health_request (recommender w) :: requests w.
Proof.
  intros Hinit Hnet1 Hjson1 Hready Hnet2 Hok Hjson2 Hsuccess.
  rewrite (init_provisioning w r1 r2 d1 Hinit Hnet1 Hjson1 Hready Hnet2).
  unfold try_catch, bind, lift. rewrite Hok, Hjson2, Hsuccess. cbn.
  repeat split.
Qed.

Lemma init_provisions_once_witness :
  let w := page (route pending_health
                   (Resolved (answer (JObj [("success", JBool true)])))
                   unreachable)
             false "ovo" in
  fst (App.init w) = Normal true
  /\ initialized (recommender (snd (App.init w))) = true
  /\ requests (snd (App.init w))
     = [App.download_request (recommender w); App.health_request (recommender w)].
Proof.
  intro w.
  apply (init_provisions_once w
           (answer (JObj [("status", JStr "pending"); ("models_loaded", JBool false)]))
           (answer (JObj [("success", JBool true)]))
           (JObj [("status", JStr "pending"); ("models_loaded", JBool false)])
           (JObj [("success", JBool true)]));
    reflexivity.
Defined.

(** C7, as the code has it: when [/health] reports not ready and the
    provisioning request fails, [init] throws and the ready flag stays
    false.  On a non-success status the message is the fixed prefix followed
    by the status text, whatever the body says.  On a successful status with
    a false [success], the message is the generic fallback when the body's
    [error] is absent or falsy, and the text of [error] when it is truthy;
    a truthy [error] that cannot be converted to text makes [new Error]
    throw, and [init] throws that TypeError instead. *)
Theorem init_provisioning_failure (w : World) (r1 r2 : Response) (d1 : JsVal) :
  initialized (recommender w) = false ->
  network w (App.health_request (recommender w) :: requests w) = Resolved r1 ->
  json r1 = Normal d1 ->
  App.reports_ready d1 = Normal false ->
  network w (App.download_request (recommender w)
               :: App.health_request (recommender w) :: requests w) = Resolved r2 ->
  (ok r2 = false ->
     fst (App.init w) = Throw (Error ("Erro ao baixar modelos: " ++ statusText r2))
     /\ initialized (recommender (snd (App.init w))) = false)
  /\ (forall d2 success error,
        ok r2 = true ->
        json r2 = Normal d2 ->
        get_prop d2 "success" = Normal success ->
        truthy success = false ->
        get_prop d2 "error" = Normal error ->
        initialized (recommender (snd (App.init w))) = false
        /\ (truthy error = false ->
            fst (App.init w) = Throw (Error "Erro desconhecido ao baixar modelos"))
        /\ (forall reason,
               truthy error = true ->
               to_string error = Normal reason ->
               fst (App.init w) = Throw (Error reason))
        /\ (forall e,
               truthy error = true ->
               to_string error = Throw e ->
               fst (App.init w) = Throw e /\ exn_name e = "TypeError")).
Proof.
  intros Hinit Hnet1 Hjson1 Hready Hnet2.
  rewrite (init_provisioning w r1 r2 d1 Hinit Hnet1 Hjson1 Hready Hnet2).
  split.
  - intros Hok. unfold try_catch, bind, lift. rewrite Hok. cbn.
    split; [reflexivity | exact Hinit].
  - intros d2 success error Hok Hjson2 Hsuccess Hfalsy Herror.
    unfold try_catch, bind, lift.
    rewrite Hok, Hjson2, Hsuccess, Hfalsy, Herror. cbn [negb].
    unfold js_or.
    split; [| split; [| split]].
    + destruct (truthy error); [destruct (to_string error) |]; cbn; exact Hinit.
    + intros F. rewrite F. reflexivity.
    + intros reason T E. rewrite T, E. reflexivity.
    + intros e T E. rewrite T, E. split; [reflexivity |].
      now rewrite (to_string_error error e E).
Qed.

Lemma init_provisioning_failure_witness :
  let w500 := page (route pending_health (Resolved download_500) unreachable)
                false "ovo" in
  let w200 := page (route pending_health (Resolved download_refused) unreachable)
                false "ovo" in
  (fst (App.init w500)
   = Throw (Error "Erro ao baixar modelos: Internal Server Error")
   /\ initialized (recommender (snd (App.init w500))) = false)
  /\ (fst (App.init w200) = Throw (Error "disk full")
      /\ initialized (recommender (snd (App.init w200))) = false).
Proof.
  intros w500 w200. split.
  - apply (init_provisioning_failure w500
             (answer (JObj [("status", JStr "pending"); ("models_loaded", JBool false)]))
             download_500
             (JObj [("status", JStr "pending"); ("models_loaded", JBool false)]));
      reflexivity.
  - destruct (init_provisioning_failure w200
                (answer (JObj [("status", JStr "pending"); ("models_loaded", JBool false)]))
                download_refused
                (JObj [("status", JStr "pending"); ("models_loaded", JBool false)])
                eq_refl eq_refl eq_refl eq_refl eq_refl) as [_ H].
    destruct (H refusal (JBool false) (JStr "disk full")
                eq_refl eq_refl eq_refl eq_refl eq_refl) as (Hflag & _ & Hreason & _).
    split; [| exact Hflag].
    apply (Hreason "disk full"); reflexivity.
Defined.

(** C7 as stated fails on a non-success status: the body's reason
    ["disk full"] is present, and the message is neither that reason nor the
    generic fallback. *)
Lemma init_message_ignores_body_reason :
  let w := page (route pending_health (Resolved download_500) unreachable)
             false "ovo" in
  get_prop refusal "error" = Normal (JStr "disk full")
  /\ fst (App.init w) = Throw (Error "Erro ao baixar modelos: Internal Server Error")
  /\ "Erro ao baixar modelos: Internal Server Error" <> "disk full"
  /\ "Erro ao baixar modelos: Internal Server Error" <> App.download_failed.
Proof.
  intro w. repeat split; try reflexivity; intro H; discriminate H.
Qed.

(** ** Requests: [suggest] *)

Lemma suggest_after_ready (ingredients : string) (w w1 : World) :
  App.ensure_initialized w = (Normal tt, w1) ->
  App.suggest ingredients w =
  try_catch
    (let* response := fetch (App.suggest_request (recommender w1) ingredients) in
     if negb (ok response) then
       throw (Error ("HTTP " ++ string_of_Z (status response) ++ ": "
                       ++ statusText response))
     else
       let* data := lift (json response) in
       lift (get_prop data "recipes"))
    (fun error => console_error "Erro na sugestão:" error ;; throw error)
    w1.
Proof.
  intros H. unfold App.suggest.
  rewrite (bind_normal _ _ _ _ _ H). reflexivity.
Qed.

Lemma ensure_initialized_ready (w : World) :
  initialized (recommender w) = true ->
  App.ensure_initialized w = (Normal tt, w).
Proof.
  intros H. unfold App.ensure_initialized, bind, get_world. cbn. now rewrite H.
Qed.

Lemma truthy_nonempty (s : string) : s <> "" -> truthy (JStr s) = true.
Proof.
  intros H. cbn. destruct (String.eqb s "") eqn:E; [| reflexivity].
  apply String.eqb_eq in E. contradiction.
Qed.

(** C3, as the code has it: on a non-success status of [/suggest] the
    class-based [suggest] throws an error whose message is ["HTTP "], the
    status code, [": "] and the status text; the procedural [suggestRecipes]
    raises an error with a fixed message that names neither, catches it
    itself and shows it in the results area. *)
Theorem suggest_non_success_status :
  (forall (ingredients : string) (w w1 : World) (response : Response),
      App.ensure_initialized w = (Normal tt, w1) ->
      network w1 (App.suggest_request (recommender w1) ingredients :: requests w1)
      = Resolved response ->
      ok response = false ->
      fst (App.suggest ingredients w)
      = Throw (Error ("HTTP " ++ string_of_Z (status response) ++ ": "
                        ++ statusText response)))
  /\ (forall (w : World) (response : Response),
        trim (input_value w) <> "" ->
        network w (Script.suggest_request (input_value w) :: requests w)
        = Resolved response ->
        ok response = false ->
        fst (Script.suggestRecipes w) = Normal tt
        /\ results_innerHTML (snd (Script.suggestRecipes w))
           = html "<p class='error'>Erro ao buscar receitas: Erro ao buscar receitas</p>"
        /\ console (snd (Script.suggestRecipes w))
           = "Erro: Error: Erro ao buscar receitas" :: console w).
Proof.
  split.
  - intros ingredients w w1 response Hready Hnet Hok.
    rewrite (suggest_after_ready _ _ _ Hready).
    unfold try_catch.
    rewrite (bind_normal _ _ _ _ _ (fetch_resolved _ _ _ Hnet)).
    rewrite Hok. reflexivity.
  - intros w response Hinput Hnet Hok.
    unfold Script.suggestRecipes, bind, get_world. cbn iota.
    rewrite (truthy_nonempty _ Hinput).
    unfold try_catch. cbn. rewrite Hnet. cbn. rewrite Hok. cbn. repeat split.
Qed.

Lemma suggest_non_success_status_witness :
  let wa := page (route unreachable unreachable (Resolved suggest_500)) true "ovo" in
  let ws := page (fun _ => Resolved suggest_500) false "ovo" in
  fst (App.suggest "ovo" wa) = Throw (Error "HTTP 500: Internal Server Error")
  /\ (fst (Script.suggestRecipes ws) = Normal tt
      /\ results_innerHTML (snd (Script.suggestRecipes ws))
         = html "<p class='error'>Erro ao buscar receitas: Erro ao buscar receitas</p>"
      /\ console (snd (Script.suggestRecipes ws))
         = ["Erro: Error: Erro ao buscar receitas"]).
Proof.
  intros wa ws. split.
  - apply (proj1 suggest_non_success_status "ovo" wa wa suggest_500); reflexivity.
  - apply (proj2 suggest_non_success_status ws suggest_500);
      [intro H; discriminate H | reflexivity | reflexivity].
Defined.

(** C3 as stated fails in the procedural client: on a 500 answer
    [suggestRecipes] completes normally, and the error it raised and logged
    carries neither the status code nor the status text. *)
Lemma suggestRecipes_hides_status :
  let w := page (fun _ => Resolved suggest_500) false "ovo" in
  ok suggest_500 = false
  /\ requests (snd (Script.suggestRecipes w)) = [Script.suggest_request "ovo"]
  /\ fst (Script.suggestRecipes w) = Normal tt
  /\ console (snd (Script.suggestRecipes w)) = ["Erro: Error: Erro ao buscar receitas"]
  /\ "Erro ao buscar receitas" <> "HTTP 500: Internal Server Error".
Proof.
  intro w. repeat split; try reflexivity. intro H; discriminate H.
Qed.

(** ** Blank queries *)

Lemma strip_head_space (cp : Z) (s : string) :
  In cp white_space_code_points ->
  strip_head false (string_of_bytes (utf8 cp) ++ s) = strip_head false s.
Proof.
  intros H. unfold white_space_code_points in H. cbn [In] in H.
  repeat (destruct H as [H | H]; [subst cp; reflexivity |]).
  contradiction.
Qed.

Lemma trim_blank (s : string) : blank s -> trim s = "".
Proof.
  intros H. unfold trim, trimStart.
  assert (E : strip_head false s = "").
  { induction H as [| cp s Hcp Hs IH]; [reflexivity |].
    now rewrite strip_head_space. }
  rewrite E. reflexivity.
Qed.

(** C8: on an empty or white-space-only query, the click listener of either
    client shows the prompt and does nothing else: the run is the [alert]
    alone, so [suggest] is not called and no request is made. *)
Theorem blank_query_rejected (w : World) :
  blank (input_value w) ->
  (App.on_click w = alert "Por favor, digite alguns ingredientes!" w
   /\ Script.suggestRecipes w = alert "Por favor, digite alguns ingredientes!" w)
  /\ (fst (App.on_click w) = Normal tt
      /\ alerts (snd (App.on_click w))
         = "Por favor, digite alguns ingredientes!" :: alerts w
      /\ requests (snd (App.on_click w)) = requests w)
  /\ (fst (Script.suggestRecipes w) = Normal tt
      /\ alerts (snd (Script.suggestRecipes w))
         = "Por favor, digite alguns ingredientes!" :: alerts w
      /\ requests (snd (Script.suggestRecipes w)) = requests w).
Proof.
  intros H.
  assert (Ha : App.on_click w = alert "Por favor, digite alguns ingredientes!" w).
  { unfold App.on_click, bind, get_world. cbn iota.
    rewrite (trim_blank _ H). reflexivity. }
  assert (Hs : Script.suggestRecipes w
               = alert "Por favor, digite alguns ingredientes!" w).
  { unfold Script.suggestRecipes, bind, get_world. cbn iota.
    rewrite (trim_blank _ H). reflexivity. }
  rewrite Ha, Hs. repeat split.
Qed.

Lemma blank_query_rejected_witness :
  let w := page ready_service true (" " ++ string_of_bytes (utf8 0xA0) ++ nl) in
  (App.on_click w = alert "Por favor, digite alguns ingredientes!" w
   /\ Script.suggestRecipes w = alert "Por favor, digite alguns ingredientes!" w)
  /\ (fst (App.on_click w) = Normal tt
      /\ alerts (snd (App.on_click w)) = ["Por favor, digite alguns ingredientes!"]
      /\ requests (snd (App.on_click w)) = [])
  /\ (fst (Script.suggestRecipes w) = Normal tt
      /\ alerts (snd (Script.suggestRecipes w))
         = ["Por favor, digite alguns ingredientes!"]
      /\ requests (snd (Script.suggestRecipes w)) = []).
Proof.
  intro w. apply (blank_query_rejected w).
  apply (blank_space 0x20 _ ltac:(cbn; tauto)).
  apply (blank_space 0xA0 _ ltac:(cbn; tauto)).
  apply (blank_space 0xA _ ltac:(cbn; tauto)).
  apply blank_empty.
Defined.

(** ** Rendering: [displayResults] *)

Lemma render_nothing (v : JsVal) :
  v = JUndefined \/ v = JNull \/ v = JArr [] -> App.render v = Normal App.no_results.
Proof. intros [H | [H | H]]; subst v; reflexivity. Qed.

(** The click listener on a query that is not blank: the page is put in
    its busy state, [suggest] and [displayResults] run, a throw of either is
    reported in the results area, and the button is restored. *)
Lemma on_click_run (w : World) :
  trim (input_value w) <> "" ->
  App.on_click w =
  (Normal tt,
   settled
     (match (let* recipes := App.suggest (trim (input_value w)) in
             App.displayResults recipes) (busy w) with
      | (Normal _, w') => w'
      | (Throw error, w') => reported error w'
      end)).
Proof.
  intros Hinput.
  unfold App.on_click, bind at 1, get_world at 1. cbn iota.
  rewrite (truthy_nonempty _ Hinput). cbn [negb].
  unfold try_finally, try_catch.
  change ((set_button_disabled true ;;
           set_button_textContent "Buscando..." ;;
           set_results_innerHTML
             (html "<p class='loading'>Analisando ingredientes...</p>") ;;
           (let* recipes := App.suggest (trim (input_value w)) in
            App.displayResults recipes)) w)
    with ((let* recipes := App.suggest (trim (input_value w)) in
           App.displayResults recipes) (busy w)).
  destruct ((let* recipes := App.suggest (trim (input_value w)) in
             App.displayResults recipes) (busy w)) as [[[] | error] w'];
    reflexivity.
Qed.

(** C10: in the class-based client [displayResults] treats [undefined] and
    [null] as it treats the empty array, showing the no-results placeholder
    and no card; so a successful [/suggest] answer whose envelope has no
    [recipes] makes [suggest] return [undefined] and the click listener show
    the placeholder, without an error. *)
Theorem missing_recipes_render_as_no_results :
  (forall (w : World) (v : JsVal),
      v = JUndefined \/ v = JNull ->
      App.displayResults v w = App.displayResults (JArr []) w
      /\ fst (App.displayResults v w) = Normal tt
      /\ results_innerHTML (snd (App.displayResults v w)) = App.no_results
      /\ results_appended (snd (App.displayResults v w)) = [])
  /\ (forall (ingredients : string) (w w1 : World) (response : Response)
             (fields : list (string * JsVal)),
        App.ensure_initialized w = (Normal tt, w1) ->
        network w1 (App.suggest_request (recommender w1) ingredients :: requests w1)
        = Resolved response ->
        ok response = true ->
        json response = Normal (JObj fields) ->
        lookup "recipes" fields = JUndefined ->
        fst (App.suggest ingredients w) = Normal JUndefined)
  /\ (forall (w : World) (response : Response) (fields : list (string * JsVal)),
        trim (input_value w) <> "" ->
        initialized (recommender w) = true ->
        network w (App.suggest_request (recommender w) (trim (input_value w))
                     :: requests w) = Resolved response ->
        ok response = true ->
        json response = Normal (JObj fields) ->
        lookup "recipes" fields = JUndefined ->
        fst (App.on_click w) = Normal tt
        /\ results_innerHTML (snd (App.on_click w)) = App.no_results
        /\ results_appended (snd (App.on_click w)) = []).
Proof.
  split; [| split].
  - intros w v Hv. unfold App.displayResults.
    rewrite (render_nothing v) by tauto. repeat split.
  - intros ingredients w w1 response fields Hready Hnet Hok Hjson Hrecipes.
    rewrite (suggest_after_ready _ _ _ Hready). unfold try_catch.
    rewrite (bind_normal _ _ _ _ _ (fetch_resolved _ _ _ Hnet)).
    rewrite Hok. unfold bind, lift. rewrite Hjson. cbn. now rewrite Hrecipes.
  - intros w response fields Hinput Hinit Hnet Hok Hjson Hrecipes.
    rewrite (on_click_run w Hinput).
    assert (Hs : App.suggest (trim (input_value w)) (busy w)
                 = (Normal JUndefined, logged (App.suggest_request (recommender w)
                                                 (trim (input_value w))) (busy w))).
    { rewrite (suggest_after_ready _ _ (busy w))
        by (apply ensure_initialized_ready; exact Hinit).
      unfold try_catch.
      rewrite (bind_normal _ _ _ _ _
                 (fetch_resolved _ (busy w) response Hnet)).
      rewrite Hok. unfold bind, lift. rewrite Hjson. cbn [get_prop negb].
      now rewrite Hrecipes. }
    rewrite (bind_normal _ _ _ _ _ Hs). repeat split.
Qed.

Lemma missing_recipes_render_as_no_results_witness :
  let w := page (route unreachable unreachable (Resolved bare_envelope)) true "ovo" in
  (App.displayResults JUndefined w = App.displayResults (JArr []) w
   /\ fst (App.displayResults JUndefined w) = Normal tt
   /\ results_innerHTML (snd (App.displayResults JUndefined w)) = App.no_results
   /\ results_appended (snd (App.displayResults JUndefined w)) = [])
  /\ fst (App.suggest "ovo" w) = Normal JUndefined
  /\ (fst (App.on_click w) = Normal tt
      /\ results_innerHTML (snd (App.on_click w)) = App.no_results
      /\ results_appended (snd (App.on_click w)) = []).
Proof.
  intro w.
  destruct missing_recipes_render_as_no_results as (Hdisplay & Hsuggest & Hclick).
  split; [| split].
  - apply (Hdisplay w JUndefined). left. reflexivity.
  - apply (Hsuggest "ovo" w w bare_envelope [("count", JNum 0)]); reflexivity.
  - apply (Hclick w bare_envelope [("count", JNum 0)]);
      [intro H; discriminate H | reflexivity ..].
Defined.

(** ** The submit button after a failure *)

(** C4, as the code has it: the click listener always leaves the submit
    button enabled with its label restored, and when [suggest] threw (a
    failed request, or a failed initialization attempted inside it) or
    [displayResults] threw while rendering what [suggest] returned, the
    error is shown in the results area; the load listener, when [init]
    throws, shows the error and leaves the submit button disabled. *)
Theorem button_after_failure :
  (forall (w : World),
      trim (input_value w) <> "" ->
      fst (App.on_click w) = Normal tt
      /\ button_disabled (snd (App.on_click w)) = false
      /\ button_textContent (snd (App.on_click w)) = "Sugerir Receitas"
      /\ (forall (error : Exn) (w' : World),
             App.suggest (trim (input_value w)) (busy w) = (Throw error, w') ->
             results_innerHTML (snd (App.on_click w))
             = html "<p class='error'>Erro: " ++ exn_message error ++ "</p>")
      /\ (forall (recipes : JsVal) (error : Exn) (w' : World),
             App.suggest (trim (input_value w)) (busy w) = (Normal recipes, w') ->
             App.render recipes = Throw error ->
             results_innerHTML (snd (App.on_click w))
             = html "<p class='error'>Erro: " ++ exn_message error ++ "</p>"))
  /\ (forall (w : World) (error : Exn),
        fst (App.init (starting w)) = Throw error ->
        fst (App.on_DOMContentLoaded w) = Normal tt
        /\ button_disabled (snd (App.on_DOMContentLoaded w)) = true
        /\ results_innerHTML (snd (App.on_DOMContentLoaded w))
           = html "<p class='error'>Sistema indisponível: "
             ++ exn_message error ++ "</p>").
Proof.
  split.
  - intros w Hinput. rewrite (on_click_run w Hinput). cbn [fst snd].
    split; [reflexivity |].
    split; [destruct (bind _ _ (busy w)) as [[[] |] ?]; reflexivity |].
    split; [destruct (bind _ _ (busy w)) as [[[] |] ?]; reflexivity |].
    split.
    + intros error w' Hs. rewrite (bind_throw _ _ _ _ _ Hs). reflexivity.
    + intros recipes error w' Hs Hrender.
      rewrite (bind_normal _ _ _ _ _ Hs).
      unfold App.displayResults, bind, lift. rewrite Hrender. reflexivity.
  - intros w error Hinit.
    unfold App.on_DOMContentLoaded, try_catch.
    change ((set_results_innerHTML
               (html "<p class='loading'>Inicializando sistema...</p>") ;;
             App.init ;;
             set_button_disabled false ;;
             set_results_innerHTML
               (html "<p class='success'>Sistema pronto! Digite seus ingredientes acima.</p>"))
              w)
      with ((App.init ;;
             set_button_disabled false ;;
             set_results_innerHTML
               (html "<p class='success'>Sistema pronto! Digite seus ingredientes acima.</p>"))
              (starting w)).
    destruct (App.init (starting w)) as [c w1] eqn:E. cbn [fst] in Hinit.
    subst c. rewrite (bind_throw _ _ _ _ _ E). repeat split.
Qed.

Lemma button_after_failure_witness :
  let wc := page (route unreachable unreachable (Resolved suggest_500)) true "ovo" in
  let wr := page (route unreachable unreachable (Resolved null_recipe)) true "ovo" in
  let wl := page (route unreachable unreachable unreachable) false "" in
  (fst (App.on_click wc) = Normal tt
   /\ button_disabled (snd (App.on_click wc)) = false
   /\ button_textContent (snd (App.on_click wc)) = "Sugerir Receitas"
   /\ results_innerHTML (snd (App.on_click wc))
      = html "<p class='error'>Erro: HTTP 500: Internal Server Error</p>")
  /\ (button_disabled (snd (App.on_click wr)) = false
      /\ results_innerHTML (snd (App.on_click wr))
         = html "<p class='error'>Erro: "
           ++ "Cannot read properties of null (reading 'title')" ++ "</p>")
  /\ (fst (App.on_DOMContentLoaded wl) = Normal tt
      /\ button_disabled (snd (App.on_DOMContentLoaded wl)) = true
      /\ results_innerHTML (snd (App.on_DOMContentLoaded wl))
         = html "<p class='error'>Sistema indisponível: Failed to fetch</p>").
Proof.
  intros wc wr wl.
  destruct button_after_failure as (Hclick & Hload).
  split; [| split].
  - destruct (Hclick wc) as (H1 & H2 & H3 & H4 & _); [intro H; discriminate H |].
    split; [exact H1 | split; [exact H2 | split; [exact H3 |]]].
    apply (H4 (Error "HTTP 500: Internal Server Error")
              (snd (App.suggest "ovo" (busy wc)))).
    reflexivity.
  - destruct (Hclick wr) as (_ & H2 & _ & _ & H5); [intro H; discriminate H |].
    split; [exact H2 |].
    apply (H5 (JArr [JNull])
              (TypeError "Cannot read properties of null (reading 'title')")
              (snd (App.suggest "ovo" (busy wr)))); reflexivity.
  - apply (Hload wl (TypeError "Failed to fetch")). reflexivity.
Defined.

(** C4 as stated fails at page load: when the service cannot be reached,
    [init] throws and the load listener disables the submit button, which
    was enabled before. *)
Lemma button_disabled_after_failed_load :
  let w := page (route unreachable unreachable unreachable) false "" in
  button_disabled w = false
  /\ fst (App.init (starting w)) = Throw (TypeError "Failed to fetch")
  /\ fst (App.on_DOMContentLoaded w) = Normal tt
  /\ button_disabled (snd (App.on_DOMContentLoaded w)) = true.
Proof. intro w. repeat split. Qed.

(** ** Cards *)

Lemma saturate_zero (z : Z) : (saturate z =? 0) = (z =? 0).
Proof.
  unfold saturate.
  destruct (z <? - max_safe_integer) eqn:Low.
  - apply Z.ltb_lt in Low. unfold max_safe_integer in *.
    symmetry. apply Z.eqb_neq. lia.
  - destruct (max_safe_integer <? z) eqn:High; [| reflexivity].
    apply Z.ltb_lt in High. unfold max_safe_integer in *.
    symmetry. apply Z.eqb_neq. lia.
Qed.

Lemma map_text_primitive (item : string -> string) (items : list JsVal) :
  forallb primitive items = true ->
  exists texts,
    map_text item items = Normal texts
    /\ List.length texts = List.length items.
Proof.
  induction items as [| x rest IH]; intros H.
  - exists []. split; reflexivity.
  - cbn in H. apply andb_prop in H as [Hx Hrest].
    destruct (primitive_to_string x Hx) as (text & Ex).
    destruct (IH Hrest) as (texts & E & L).
    exists (item text :: texts). cbn. rewrite Ex. cbn. rewrite E. cbn.
    split; [reflexivity | now rewrite L].
Qed.

Lemma app_items_total (expr kind fallback : string) (list : JsVal) :
  primitive_items_or_absent list = true ->
  exists markup,
    App.ingredient_items expr kind fallback list = Normal markup
    /\ (absent list -> markup = fallback).
Proof.
  intros H. destruct list; try discriminate H.
  - eexists. split; reflexivity.
  - eexists. split; reflexivity.
  - cbn in H.
    destruct (map_text_primitive
                (fun i => html "<li class='ingredient " ++ kind ++ html "'>"
                            ++ i ++ "</li>") items H) as (texts & E & _).
    unfold App.ingredient_items. cbn [elements bindC]. rewrite E. cbn [bindC].
    eexists. split; [reflexivity |]. intros [A | A]; discriminate A.
Qed.

Lemma script_items_total (expr kind mark : string) (list : JsVal) :
  primitive_items list = true ->
  exists markup, Script.ingredient_items expr kind mark list = Normal markup.
Proof.
  intros H. destruct list; try discriminate H. cbn in H.
  destruct (map_text_primitive
              (fun ing => html "<li class='ingredient " ++ kind ++ html "'>"
                            ++ mark ++ " " ++ ing ++ "</li>") items H)
    as (texts & E & _).
  unfold Script.ingredient_items. cbn [elements bindC]. rewrite E.
  eexists. reflexivity.
Qed.

Lemma truthy_not_absent (v : JsVal) : truthy v = true -> ~ absent v.
Proof. intros T [A | A]; subst v; discriminate T. Qed.

Lemma app_directions_total (v : JsVal) :
  primitive v = true ->
  exists block, App.directions_block v = Normal block /\ (absent v -> block = "").
Proof.
  intros P. unfold App.directions_block. destruct (truthy v) eqn:T.
  - destruct (primitive_to_string v P) as (text & E). rewrite E.
    eexists. split; [reflexivity |].
    intros A. destruct (truthy_not_absent v T A).
  - eexists. split; reflexivity.
Qed.

Lemma app_link_total (v : JsVal) :
  primitive v = true ->
  exists block, App.link_block v = Normal block /\ (absent v -> block = "").
Proof.
  intros P. unfold App.link_block. destruct (truthy v) eqn:T.
  - destruct (primitive_to_string v P) as (text & E). rewrite E.
    eexists. split; [reflexivity |].
    intros A. destruct (truthy_not_absent v T A).
  - eexists. split; reflexivity.
Qed.

Lemma script_directions_total (v : JsVal) :
  primitive v = true ->
  exists block,
    Script.directions_block v = Normal block /\ (absent v -> block = "").
Proof.
  intros P. unfold Script.directions_block. destruct (truthy v) eqn:T.
  - destruct (primitive_to_string v P) as (text & E). rewrite E.
    eexists. split; [reflexivity |].
    intros A. destruct (truthy_not_absent v T A).
  - eexists. split; reflexivity.
Qed.

Lemma script_link_total (v : JsVal) :
  primitive v = true ->
  exists block, Script.link_block v = Normal block /\ (absent v -> block = "").
Proof.
  intros P. unfold Script.link_block. destruct (truthy v) eqn:T.
  - destruct (primitive_to_string v P) as (text & E). rewrite E.
    eexists. split; [reflexivity |].
    intros A. destruct (truthy_not_absent v T A).
  - eexists. split; reflexivity.
Qed.

(** The card of a recipe object of the class-based client, slot by slot. *)
Lemma app_card_total (fields : list (string * JsVal)) :
  app_recipe (JObj fields) ->
  exists title match_ used missing directions link,
    to_string (lookup "title" fields) = Normal title
    /\ to_string (lookup "match" fields) = Normal match_
    /\ App.recipe_card (JObj fields)
       = Normal (App.card_template title match_ used missing directions link)
    /\ (absent (lookup "used_ingredients" fields) -> used = App.used_fallback)
    /\ (absent (lookup "missing_ingredients" fields)
        -> missing = App.missing_fallback)
    /\ (absent (lookup "directions" fields) -> directions = "")
    /\ (absent (lookup "link" fields) -> link = "").
Proof.
  intros (fields' & Eq & Pt & Pm & Pu & Pmi & Pd & Pl).
  injection Eq as <-.
  destruct (primitive_to_string _ Pt) as (title & Et).
  destruct (primitive_to_string _ Pm) as (match_ & Em).
  destruct (app_items_total "recipe.used_ingredients?" "has" App.used_fallback
              _ Pu) as (used & Eu & Fu).
  destruct (app_items_total "recipe.missing_ingredients?" "missing"
              App.missing_fallback _ Pmi) as (missing & Emi & Fmi).
  destruct (app_directions_total _ Pd) as (directions & Ed & Fd).
  destruct (app_link_total _ Pl) as (link & El & Fl).
  exists title, match_, used, missing, directions, link.
  repeat (split; [assumption |]).
  split; [| repeat split; assumption].
  unfold App.recipe_card. cbn [get_prop bindC].
  rewrite Et. cbn [bindC]. rewrite Em. cbn [bindC]. rewrite Eu. cbn [bindC].
  rewrite Emi. cbn [bindC]. rewrite Ed. cbn [bindC]. rewrite El. reflexivity.
Qed.

(** The card of a recipe object of the procedural client, slot by slot. *)
Lemma script_card_total (fields : list (string * JsVal)) :
  script_recipe (JObj fields) ->
  exists title match_ used missing directions link,
    to_string (lookup "title" fields) = Normal title
    /\ to_string (lookup "match" fields) = Normal match_
    /\ Script.recipe_card (JObj fields)
       = Normal (Script.card_template title match_ used missing directions link)
    /\ (absent (lookup "directions" fields) -> directions = "")
    /\ (absent (lookup "link" fields) -> link = "").
Proof.
  intros (fields' & Eq & Pt & Pm & Pu & Pmi & Pd & Pl).
  injection Eq as <-.
  destruct (primitive_to_string _ Pt) as (title & Et).
  destruct (primitive_to_string _ Pm) as (match_ & Em).
  destruct (script_items_total "recipe.used" "has" "✔" _ Pu) as (used & Eu).
  destruct (script_items_total "recipe.missing" "missing" "✖" _ Pmi)
    as (missing & Emi).
  destruct (script_directions_total _ Pd) as (directions & Ed & Fd).
  destruct (script_link_total _ Pl) as (link & El & Fl).
  exists title, match_, used, missing, directions, link.
  repeat (split; [assumption |]).
  split; [| split; assumption].
  unfold Script.recipe_card. cbn [get_prop bindC].
  rewrite Et. cbn [bindC]. rewrite Em. cbn [bindC]. rewrite Eu. cbn [bindC].
  rewrite Emi. cbn [bindC]. rewrite Ed. cbn [bindC]. rewrite El. reflexivity.
Qed.

Lemma to_int_proper (n : Z) : Z.to_int n <> Decimal.Pos Decimal.Nil
                              /\ Z.to_int n <> Decimal.Neg Decimal.Nil.
Proof.
  split; intros E; pose proof (DecimalZ.of_to n) as H; rewrite E in H;
    cbn in H; subst n; discriminate E.
Qed.

(** Distinct integers print differently. *)
Lemma string_of_Z_inj (a b : Z) : string_of_Z a = string_of_Z b -> a = b.
Proof.
  unfold string_of_Z. intros E.
  apply DecimalZ.to_int_inj.
  destruct (to_int_proper a) as [Pa Na], (to_int_proper b) as [Pb Nb].
  pose proof (NilZero.isi _ Pa Na) as Ia.
  pose proof (NilZero.isi _ Pb Nb) as Ib.
  rewrite E in Ia. rewrite Ia in Ib. now injection Ib.
Qed.

Lemma render_cards (recipe : JsVal) (rest : list JsVal) :
  App.render (JArr (recipe :: rest))
  = (let? cards := App.map_cards (recipe :: rest) in Normal (concat_all cards)).
Proof.
  unfold App.render. cbn [truthy negb get_prop String.eqb Ascii.eqb Bool.eqb bindC].
  unfold JNum. cbn [strict_eq List.length int int_value].
  rewrite saturate_zero.
  replace (Z.of_nat (S (List.length rest)) =? 0) with false
    by (symmetry; apply Z.eqb_neq; lia).
  reflexivity.
Qed.


(** C1, as the code has it: in either client the card of a recipe shows, in
    its match slot, the text the received [match] converts to, whatever its
    value: a safe integer is shown in plain decimal and any other Number as
    JavaScript prints it.  Nothing clamps it, so what is shown for an
    integer agrees with the clamped value exactly when the value received is
    within 0 and 100. *)
Theorem match_shown_as_received (fields : list (string * JsVal)) (shown : string) :
  to_string (lookup "match" fields) = Normal shown ->
  (app_recipe (JObj fields) ->
   exists title used missing directions link,
     App.recipe_card (JObj fields)
     = Normal (App.card_template title shown used missing directions link))
  /\ (script_recipe (JObj fields) ->
      exists title used missing directions link,
        Script.recipe_card (JObj fields)
        = Normal (Script.card_template title shown used missing directions link))
  /\ (forall m : SafeInt,
         lookup "match" fields = JInt m ->
         shown = string_of_Z (int_value m)
         /\ (shown = string_of_Z (spec_clamp (int_value m))
             <-> 0 <= int_value m <= 100))
  /\ (forall text : string, lookup "match" fields = JFloat text -> shown = text).
Proof.
  intros Hshown. split; [| split; [| split]].
  - intros Hr.
    destruct (app_card_total fields Hr)
      as (title & match_ & used & missing & directions & link & _ & Em & E & _).
    rewrite Hshown in Em. injection Em as <-.
    exists title, used, missing, directions, link. exact E.
  - intros Hr.
    destruct (script_card_total fields Hr)
      as (title & match_ & used & missing & directions & link & _ & Em & E & _).
    rewrite Hshown in Em. injection Em as <-.
    exists title, used, missing, directions, link. exact E.
  - intros m Hm. rewrite Hm in Hshown. cbn in Hshown. injection Hshown as <-.
    split; [reflexivity |]. split.
    + intros E. apply string_of_Z_inj in E. unfold spec_clamp in E. lia.
    + intros Hrange. unfold spec_clamp. f_equal. lia.
  - intros text Hm. rewrite Hm in Hshown. cbn in Hshown. now injection Hshown as <-.
Qed.

Lemma match_shown_as_received_witness :
  let fields :=
    [("title", JStr "Bolo"); ("match", JNum 150);
     ("used_ingredients", JArr [JStr "ovo"]);
     ("missing_ingredients", JArr [JStr "leite"]);
     ("used", JArr [JStr "ovo"]); ("missing", JArr [JStr "leite"])] in
  (app_recipe (JObj fields) ->
   exists title used missing directions link,
     App.recipe_card (JObj fields)
     = Normal (App.card_template title "150" used missing directions link))
  /\ (script_recipe (JObj fields) ->
      exists title used missing directions link,
        Script.recipe_card (JObj fields)
        = Normal (Script.card_template title "150" used missing directions link))
  /\ (forall m : SafeInt,
         lookup "match" fields = JInt m ->
         "150" = string_of_Z (int_value m)
         /\ ("150" = string_of_Z (spec_clamp (int_value m))
             <-> 0 <= int_value m <= 100))
  /\ (forall text : string, lookup "match" fields = JFloat text -> "150" = text).
Proof.
  intro fields. apply (match_shown_as_received fields "150"). reflexivity.
Defined.

(** C1 as stated fails: a match of 150 is shown as 150 by either client,
    where the clamped value is 100. *)
Lemma match_150_not_clamped :
  spec_clamp 150 = 100
  /\ App.render (JArr [bolo 150])
     = Normal (App.card_template "Bolo" "150"
                 (html "<li class='ingredient has'>ovo</li>")
                 (html "<li class='ingredient missing'>leite</li>") "" "" ++ "")
  /\ App.render (JArr [bolo 150]) <> App.render (JArr [bolo (spec_clamp 150)])
  /\ Script.recipe_card (bolo 150)
     = Normal (Script.card_template "Bolo" "150"
                 (html "<li class='ingredient has'>✔ ovo</li>")
                 (html "<li class='ingredient missing'>✖ leite</li>") "" "")
  /\ Script.recipe_card (bolo 150) <> Script.recipe_card (bolo (spec_clamp 150)).
Proof.
  repeat split; try reflexivity; intro H; vm_compute in H; discriminate H.
Qed.




(** The procedural client reads [recipe.used.map] with no guard: on a
    recipe without ingredient lists the card throws, and [displayResults]
    with it. *)
Lemma script_card_needs_lists :
  Script.recipe_card bare_recipe
  = Throw (TypeError "Cannot read properties of undefined (reading 'map')")
  /\ fst (Script.displayResults (JArr [bare_recipe]) (page ready_service true "ovo"))
     = Throw (TypeError "Cannot read properties of undefined (reading 'map')").
Proof. split; reflexivity. Qed.

(** * Further properties of the code *)

(** Case analysis on every branch of a run, innermost condition first. *)
Ltac break_inner :=
  match goal with
  | |- context [match ?x with _ => _ end] =>
      lazymatch x with
      | context [match _ with _ => _ end] => fail
      | _ => destruct x eqn:?
      end
  end.

Ltac run_cases :=
  unfold try_catch, try_finally, bind, bindC, lift, fetch, get_world,
    set_requests, set_initialized, set_results_innerHTML, set_button_disabled,
    set_button_textContent, alert, console_log, console_error, throw, ret;
  cbn;
  repeat (break_inner; cbn in * ).

(** ** [init]: failures, the flag and the requests *)

Lemma init_flag (w : World) :
  match fst (App.init w) with
  | Normal b => b = true /\ initialized (recommender (snd (App.init w))) = true
  | Throw _ => initialized (recommender w) = false
               /\ initialized (recommender (snd (App.init w))) = false
  end.
Proof.
  unfold App.init, App.reports_ready. run_cases.
  all: split; congruence.
Qed.

Lemma init_frame (w : World) :
  same_page w (snd (App.init w)) /\ same_service w (snd (App.init w)).
Proof.
  unfold App.init, App.reports_ready, same_page, same_service. run_cases.
  all: repeat split.
Qed.

(** X1: when the health request cannot be sent or answered, [init] rethrows
    the transport error after logging it once; the flag stays false and the
    health request is the only one made. *)
Theorem init_health_unreachable (w : World) (e : Exn) :
  initialized (recommender w) = false ->
  network w (App.health_request (recommender w) :: requests w) = Rejected e ->
  fst (App.init w) = Throw e
  /\ initialized (recommender (snd (App.init w))) = false
  /\ requests (snd (App.init w)) = App.health_request (recommender w) :: requests w
  /\ console (snd (App.init w))
     = console (snd (console_error "Erro na inicialização:" e w)).
Proof.
  intros Hflag Hnet. unfold App.init, try_catch, bind, get_world, fetch. cbn.
  rewrite Hflag, Hnet. cbn. rewrite Hflag. repeat split.
Qed.

Lemma init_health_unreachable_witness :
  let w := page (route unreachable unreachable unreachable) false "ovo" in
  fst (App.init w) = Throw (TypeError "Failed to fetch")
  /\ initialized (recommender (snd (App.init w))) = false
  /\ requests (snd (App.init w)) = [App.health_request (recommender w)]
  /\ console (snd (App.init w))
     = ["Erro na inicialização: TypeError: Failed to fetch"].
Proof.
  intro w. apply (init_health_unreachable w (TypeError "Failed to fetch"));
    reflexivity.
Defined.

(** X2: when the health answer has no usable body ([response.json()]
    rejects, or the body is [null]), [init] throws without calling the
    provisioning endpoint, and the flag stays false: a rejected body is
    rethrown as it is, a [null] body gives a TypeError. *)
Theorem init_health_body_unusable (w : World) (r1 : Response) :
  initialized (recommender w) = false ->
  network w (App.health_request (recommender w) :: requests w) = Resolved r1 ->
  (forall e, json r1 = Throw e -> fst (App.init w) = Throw e)
  /\ (json r1 = Normal JNull ->
      exists e, fst (App.init w) = Throw e /\ exn_name e = "TypeError")
  /\ ((exists e, json r1 = Throw e) \/ json r1 = Normal JNull ->
      initialized (recommender (snd (App.init w))) = false
      /\ requests (snd (App.init w))
         = App.health_request (recommender w) :: requests w).
Proof.
  intros Hflag Hnet.
  unfold App.init, App.reports_ready, try_catch, bind, bindC, lift, get_world,
    fetch. cbn.
  rewrite Hflag, Hnet. cbn.
  split; [| split].
  - intros e E. rewrite E. reflexivity.
  - intros E. rewrite E. cbn. eexists. split; reflexivity.
  - intros [[e E] | E]; rewrite E; cbn; rewrite Hflag; split; reflexivity.
Qed.

Lemma init_health_body_unusable_witness :
  let w := page (route (Resolved garbled) unreachable unreachable) false "ovo" in
  (forall e, json garbled = Throw e -> fst (App.init w) = Throw e)
  /\ (json garbled = Normal JNull ->
      exists e, fst (App.init w) = Throw e /\ exn_name e = "TypeError")
  /\ ((exists e, json garbled = Throw e) \/ json garbled = Normal JNull ->
      initialized (recommender (snd (App.init w))) = false
      /\ requests (snd (App.init w)) = [App.health_request (recommender w)]).
Proof.
  intro w. apply (init_health_body_unusable w garbled); reflexivity.
Defined.

(** X3: [init] completes normally only with [true] and with the flag set;
    when it throws, the flag was false and stays false. *)
Theorem init_outcome_and_flag (w : World) :
  (forall b, fst (App.init w) = Normal b ->
             b = true /\ initialized (recommender (snd (App.init w))) = true)
  /\ (forall e, fst (App.init w) = Throw e ->
                initialized (recommender w) = false
                /\ initialized (recommender (snd (App.init w))) = false).
Proof.
  pose proof (init_flag w) as H.
  split; intros x E; rewrite E in H; exact H.
Qed.

Lemma init_outcome_and_flag_witness :
  let w := page (route pending_health (Resolved download_500) unreachable)
             false "ovo" in
  initialized (recommender w) = false
  /\ initialized (recommender (snd (App.init w))) = false.
Proof.
  intro w.
  apply (proj2 (init_outcome_and_flag w)
           (Error "Erro ao baixar modelos: Internal Server Error")).
  reflexivity.
Defined.

(** X4: [init] makes no request, or the health request alone, or the health
    request followed by one provisioning request; when the flag was not set,
    the health request is always made, and made first. *)
Theorem init_requests (w : World) :
  (requests (snd (App.init w)) = requests w
   \/ requests (snd (App.init w))
      = App.health_request (recommender w) :: requests w
   \/ requests (snd (App.init w))
      = App.download_request (recommender w)
          :: App.health_request (recommender w) :: requests w)
  /\ (initialized (recommender w) = false ->
      exists later,
        requests (snd (App.init w))
        = (later ++ App.health_request (recommender w) :: requests w)%list).
Proof.
  unfold App.init, App.reports_ready. run_cases.
  all: split; [tauto | intros F; try discriminate F].
  all: first [ now exists [] | now eexists [_] ].
Qed.

Lemma init_requests_witness :
  let w := page (route pending_health (Resolved download_500) unreachable)
             false "ovo" in
  exists later,
    requests (snd (App.init w))
    = (later ++ App.health_request (recommender w) :: requests w)%list.
Proof.
  intro w. apply (proj2 (init_requests w)). reflexivity.
Defined.

(** X5: [init] never touches the page: the input, the results area, the
    button and the alerts are as before, and so are the service and the API
    configuration of the recommender. *)
Theorem init_leaves_page (w : World) :
  same_page w (snd (App.init w)) /\ same_service w (snd (App.init w)).
Proof. exact (init_frame w). Qed.

(** X6: after an [init] that completed normally, a second [init] returns
    [true] at once and changes nothing: no further request is made. *)
Theorem init_twice (w : World) (b : bool) :
  fst (App.init w) = Normal b ->
  App.init (snd (App.init w)) = (Normal true, snd (App.init w)).
Proof.
  intros E. pose proof (init_flag w) as H. rewrite E in H.
  destruct H as [_ H].
  unfold App.init at 1. unfold bind, get_world. cbn iota. now rewrite H.
Qed.

Lemma init_twice_witness :
  let w := page (route pending_health
                   (Resolved (answer (JObj [("success", JBool true)])))
                   unreachable) false "ovo" in
  App.init (snd (App.init w)) = (Normal true, snd (App.init w)).
Proof.
  intro w. apply (init_twice w true). reflexivity.
Defined.

(** ** [suggest]: failures and the value returned *)

Lemma ensure_initialized_throws (w w' : World) (e : Exn) :
  initialized (recommender w) = false ->
  App.init w = (Throw e, w') ->
  App.ensure_initialized w = (Throw e, w').
Proof.
  intros Hflag E. unfold App.ensure_initialized, bind at 1, get_world. cbn iota.
  rewrite Hflag. cbn [negb]. apply bind_throw. exact E.
Qed.

(** X7: when the recommender is not ready and [init] throws, [suggest]
    stops there: it throws the same error from the same world, so no
    suggestion request is made and the error is not logged a second time. *)
Theorem suggest_stops_when_init_fails
        (ingredients : string) (w w' : World) (e : Exn) :
  initialized (recommender w) = false ->
  App.init w = (Throw e, w') ->
  App.suggest ingredients w = (Throw e, w').
Proof.
  intros Hflag E. unfold App.suggest.
  apply bind_throw. apply ensure_initialized_throws; assumption.
Qed.

Lemma suggest_stops_when_init_fails_witness :
  let w := page (route unreachable unreachable (Resolved one_recipe)) false "ovo" in
  App.suggest "ovo" w
  = (Throw (TypeError "Failed to fetch"), snd (App.init w)).
Proof.
  intro w.
  apply (suggest_stops_when_init_fails "ovo" w (snd (App.init w))
           (TypeError "Failed to fetch")); reflexivity.
Defined.

(** X8: once the recommender is ready, a success answer whose body is an
    object makes [suggest] return that object's [recipes] as it is; the
    suggestion request, carrying the ingredients, is the only request added
    and nothing is logged. *)
Theorem suggest_returns_recipes
        (ingredients : string) (w w1 : World) (response : Response)
        (fields : list (string * JsVal)) :
  App.ensure_initialized w = (Normal tt, w1) ->
  network w1 (App.suggest_request (recommender w1) ingredients :: requests w1)
  = Resolved response ->
  ok response = true ->
  json response = Normal (JObj fields) ->
  App.suggest ingredients w
  = (Normal (lookup "recipes" fields),
     logged (App.suggest_request (recommender w1) ingredients) w1).
Proof.
  intros Hready Hnet Hok Hjson.
  rewrite (suggest_after_ready _ _ _ Hready). unfold try_catch.
  rewrite (bind_normal _ _ _ _ _ (fetch_resolved _ _ _ Hnet)).
  rewrite Hok. unfold bind, lift. rewrite Hjson. reflexivity.
Qed.

Lemma suggest_returns_recipes_witness :
  let w := page (healthy (Resolved one_recipe)) true "ovo" in
  App.suggest "ovo" w
  = (Normal (JArr [bolo 87]), logged (App.suggest_request (recommender w) "ovo") w).
Proof.
  intro w.
  apply (suggest_returns_recipes "ovo" w w one_recipe
           [("recipes", JArr [bolo 87])]); reflexivity.
Defined.

(** X9: once the recommender is ready, a suggestion request that cannot be
    sent, an answer whose body [response.json()] rejects, and an answer
    whose body is [null] all make [suggest] throw after logging the error
    once; the first two rethrow the error as it is. *)
Theorem suggest_unusable_answer (ingredients : string) (w w1 : World) :
  App.ensure_initialized w = (Normal tt, w1) ->
  let request := App.suggest_request (recommender w1) ingredients in
  (forall e,
      network w1 (request :: requests w1) = Rejected e ->
      App.suggest ingredients w
      = (Throw e, snd (console_error "Erro na sugestão:" e (logged request w1))))
  /\ (forall response e,
         network w1 (request :: requests w1) = Resolved response ->
         ok response = true ->
         json response = Throw e ->
         App.suggest ingredients w
         = (Throw e, snd (console_error "Erro na sugestão:" e (logged request w1))))
  /\ (forall response,
         network w1 (request :: requests w1) = Resolved response ->
         ok response = true ->
         json response = Normal JNull ->
         exists e,
           exn_name e = "TypeError"
           /\ App.suggest ingredients w
              = (Throw e,
                 snd (console_error "Erro na sugestão:" e (logged request w1)))).
Proof.
  intros Hready request.
  rewrite (suggest_after_ready _ _ _ Hready). fold request.
  split; [| split].
  - intros e Hnet. unfold try_catch, bind, fetch, get_world. cbn.
    rewrite Hnet. reflexivity.
  - intros response e Hnet Hok Hjson. unfold try_catch.
    rewrite (bind_normal _ _ _ _ _ (fetch_resolved _ _ _ Hnet)).
    rewrite Hok. unfold bind, lift. rewrite Hjson. reflexivity.
  - intros response Hnet Hok Hjson. unfold try_catch.
    rewrite (bind_normal _ _ _ _ _ (fetch_resolved _ _ _ Hnet)).
    rewrite Hok. unfold bind, lift. rewrite Hjson.
    exists (TypeError "Cannot read properties of null (reading 'recipes')").
    split; reflexivity.
Qed.

Lemma suggest_unusable_answer_witness :
  let w := page (healthy (Resolved garbled)) true "ovo" in
  let request := App.suggest_request (recommender w) "ovo" in
  App.suggest "ovo" w
  = (Throw (mkExn "SyntaxError" "Unexpected token < in JSON"),
     snd (console_error "Erro na sugestão:"
            (mkExn "SyntaxError" "Unexpected token < in JSON")
            (logged request w))).
Proof.
  intros w request.
  apply (proj1 (proj2 (suggest_unusable_answer "ovo" w w eq_refl)) garbled);
    reflexivity.
Defined.

(** ** The page handlers of app.js *)

Lemma suggest_frame (ingredients : string) (w : World) :
  same_page w (snd (App.suggest ingredients w))
  /\ same_service w (snd (App.suggest ingredients w)).
Proof.
  unfold App.suggest, App.ensure_initialized, App.init, App.reports_ready,
    same_page, same_service.
  run_cases.
  all: repeat split.
Qed.

Lemma suggest_ready (ingredients : string) (w : World) :
  initialized (recommender w) = true ->
  requests (snd (App.suggest ingredients w))
  = App.suggest_request (recommender w) ingredients :: requests w
  /\ initialized (recommender (snd (App.suggest ingredients w))) = true.
Proof.
  intros Hflag.
  unfold App.suggest, App.ensure_initialized, bind at 1 2, get_world at 1.
  cbn iota. rewrite Hflag. cbn [negb].
  run_cases.
  all: try discriminate Hflag; split; auto.
Qed.

Lemma displayResults_run (recipes : JsVal) (w : World) :
  App.displayResults recipes w
  = match App.render recipes with
    | Normal markup => set_results_innerHTML markup w
    | Throw e => (Throw e, w)
    end.
Proof.
  unfold App.displayResults, bind, lift. destruct (App.render recipes); reflexivity.
Qed.

(** The world a click on a query that is not blank ends in. *)
Lemma on_click_world (w : World) :
  trim (input_value w) <> "" ->
  App.on_click w =
  (Normal tt,
   settled
     (match App.suggest (trim (input_value w)) (busy w) with
      | (Normal recipes, w1) =>
          match App.render recipes with
          | Normal markup => snd (set_results_innerHTML markup w1)
          | Throw error => reported error w1
          end
      | (Throw error, w1) => reported error w1
      end)).
Proof.
  intros Hinput. rewrite (on_click_run w Hinput). unfold bind.
  destruct (App.suggest (trim (input_value w)) (busy w)) as [[recipes | error] w1];
    [| reflexivity].
  rewrite displayResults_run. destruct (App.render recipes); reflexivity.
Qed.

(** X10: no handler of the class-based client lets an error escape: the
    click listener, the load listener, the keypress listener and a
    programmatic click all complete normally in every world. *)
Theorem app_handlers_complete_normally (w : World) (key : string) :
  fst (App.on_click w) = Normal tt
  /\ fst (App.on_DOMContentLoaded w) = Normal tt
  /\ fst (App.button_click w) = Normal tt
  /\ fst (App.on_keypress key w) = Normal tt.
Proof.
  assert (Hclick : forall w, fst (App.on_click w) = Normal tt).
  { intros w0. destruct (String.eqb (trim (input_value w0)) "") eqn:E.
    - unfold App.on_click, bind, get_world. cbn. rewrite E. reflexivity.
    - apply String.eqb_neq in E. now rewrite (on_click_run w0 E). }
  assert (Hbutton : forall w, fst (App.button_click w) = Normal tt).
  { intros w0. unfold App.button_click, bind, get_world. cbn iota.
    destruct (button_disabled w0); [reflexivity | apply Hclick]. }
  split; [apply Hclick | split; [| split; [apply Hbutton |]]].
  - unfold App.on_DOMContentLoaded, try_catch.
    match goal with |- context [let (_, _) := ?run in _] => destruct run as [[[] | e] w1] end;
      reflexivity.
  - unfold App.on_keypress, bind, get_world. cbn iota.
    destruct (String.eqb key "Enter" && negb (button_disabled w));
      [apply Hbutton | reflexivity].
Qed.

Lemma on_click_requests (w : World) :
  trim (input_value w) <> "" ->
  initialized (recommender w) = true ->
  requests (snd (App.on_click w))
  = App.suggest_request (recommender w) (trim (input_value w)) :: requests w
  /\ initialized (recommender (snd (App.on_click w))) = true.
Proof.
  intros Hinput Hflag. rewrite (on_click_world w Hinput).
  pose proof (suggest_ready (trim (input_value w)) (busy w) Hflag) as H.
  destruct (App.suggest (trim (input_value w)) (busy w)) as [[recipes | error] w1];
    cbn [snd] in *; [destruct (App.render recipes) |]; exact H.
Qed.

(** X11: a click on a query that is not blank, with the recommender ready,
    makes exactly one request whatever the service answers: the suggestion
    request carrying the trimmed query; the flag stays set. *)
Theorem click_sends_trimmed_query (w : World) :
  trim (input_value w) <> "" ->
  initialized (recommender w) = true ->
  requests (snd (App.on_click w))
  = App.suggest_request (recommender w) (trim (input_value w)) :: requests w
  /\ initialized (recommender (snd (App.on_click w))) = true.
Proof. exact (on_click_requests w). Qed.

Lemma click_sends_trimmed_query_witness :
  let w := page (healthy (Resolved one_recipe)) true "  ovo, leite " in
  requests (snd (App.on_click w))
  = [App.suggest_request (recommender w) "ovo, leite"]
  /\ initialized (recommender (snd (App.on_click w))) = true.
Proof.
  intro w. apply (click_sends_trimmed_query w);
    [intro H; discriminate H | reflexivity].
Defined.

(** X12: the keypress listener acts on Enter with the button enabled only:
    with any other key, or with the button disabled, it changes nothing;
    with Enter and the button enabled it is the click listener.  A
    programmatic click on a disabled button changes nothing either. *)
Theorem keypress_needs_enter_and_enabled_button (w : World) (key : string) :
  (button_disabled w = true \/ key <> "Enter" ->
   App.on_keypress key w = (Normal tt, w))
  /\ (button_disabled w = false -> App.on_keypress "Enter" w = App.on_click w)
  /\ (button_disabled w = true -> App.button_click w = (Normal tt, w)).
Proof.
  unfold App.on_keypress, App.button_click, bind, get_world. cbn iota.
  split; [| split].
  - intros [H | H].
    + rewrite H. now rewrite Bool.andb_false_r.
    + apply String.eqb_neq in H. now rewrite H.
  - intros H. rewrite H. cbn. rewrite H. reflexivity.
  - intros H. rewrite H. reflexivity.
Qed.

Lemma keypress_needs_enter_and_enabled_button_witness :
  let w := page (healthy (Resolved one_recipe)) true "ovo" in
  App.on_keypress "a" w = (Normal tt, w)
  /\ App.on_keypress "Enter" w = App.on_click w.
Proof.
  intro w.
  destruct (keypress_needs_enter_and_enabled_button w "a") as (Hother & _ & _).
  destruct (keypress_needs_enter_and_enabled_button w "Enter") as (_ & Henter & _).
  split.
  - apply Hother. right. intro H; discriminate H.
  - apply Henter. reflexivity.
Defined.

(** The world the load listener ends in. *)
Lemma on_DOMContentLoaded_world (w : World) :
  App.on_DOMContentLoaded w =
  (Normal tt,
   match App.init (starting w) with
   | (Normal _, w1) =>
       snd ((set_button_disabled false ;;
             set_results_innerHTML
               (html "<p class='success'>Sistema pronto! Digite seus ingredientes acima.</p>"))
              w1)
   | (Throw error, w1) =>
       snd ((set_results_innerHTML
               (html "<p class='error'>Sistema indisponível: "
                ++ exn_message error ++ "</p>") ;;
             set_button_disabled true) w1)
   end).
Proof.
  unfold App.on_DOMContentLoaded, try_catch.
  change ((set_results_innerHTML
             (html "<p class='loading'>Inicializando sistema...</p>") ;;
           App.init ;;
           set_button_disabled false ;;
           set_results_innerHTML
             (html "<p class='success'>Sistema pronto! Digite seus ingredientes acima.</p>"))
            w)
    with ((App.init ;;
           set_button_disabled false ;;
           set_results_innerHTML
             (html "<p class='success'>Sistema pronto! Digite seus ingredientes acima.</p>"))
            (starting w)).
  unfold bind at 1.
  destruct (App.init (starting w)) as [[b | error] w1]; reflexivity.
Qed.

Lemma load_success_aux (w w1 : World) (b : bool) :
  App.init (starting w) = (Normal b, w1) ->
  initialized (recommender (snd (App.on_DOMContentLoaded w))) = true
  /\ input_value (snd (App.on_DOMContentLoaded w)) = input_value w.
Proof.
  intros E. rewrite on_DOMContentLoaded_world, E. cbn.
  pose proof (init_flag (starting w)) as F. rewrite E in F. cbn in F.
  pose proof (init_frame (starting w)) as [(I & _) _]. rewrite E in I. cbn in I.
  split; [apply F | exact I].
Qed.

(** X13: when [init] completes at page load, the load listener enables the
    submit button, shows the ready message in the results area, and leaves
    the recommender ready, with the requests [init] made and no other. *)
Theorem load_success (w w1 : World) (b : bool) :
  App.init (starting w) = (Normal b, w1) ->
  let w' := snd (App.on_DOMContentLoaded w) in
  button_disabled w' = false
  /\ results_innerHTML w'
     = html "<p class='success'>Sistema pronto! Digite seus ingredientes acima.</p>"
  /\ initialized (recommender w') = true
  /\ requests w' = requests w1
  /\ input_value w' = input_value w.
Proof.
  intros E w'. subst w'. rewrite on_DOMContentLoaded_world, E. cbn.
  pose proof (init_flag (starting w)) as F. rewrite E in F. cbn in F.
  pose proof (init_frame (starting w)) as [(I & _) _]. rewrite E in I. cbn in I.
  repeat split; [apply F | exact I].
Qed.

Lemma load_success_witness :
  let w := page (healthy unreachable) false "ovo" in
  let w' := snd (App.on_DOMContentLoaded w) in
  button_disabled w' = false
  /\ results_innerHTML w'
     = html "<p class='success'>Sistema pronto! Digite seus ingredientes acima.</p>"
  /\ initialized (recommender w') = true
  /\ requests w' = requests (snd (App.init (starting w)))
  /\ input_value w' = input_value w.
Proof.
  intro w. apply (load_success w (snd (App.init (starting w))) true). reflexivity.
Defined.

(** X14: after a failed initialization at page load the page stays locked:
    in the world the load listener leaves, neither a key press nor a
    programmatic click does anything, so no request can be made from it. *)
Theorem failed_load_locks_page (w : World) (error : Exn) (key : string) :
  fst (App.init (starting w)) = Throw error ->
  let w' := snd (App.on_DOMContentLoaded w) in
  App.on_keypress key w' = (Normal tt, w')
  /\ App.button_click w' = (Normal tt, w').
Proof.
  intros E w'.
  assert (D : button_disabled w' = true).
  { subst w'. rewrite on_DOMContentLoaded_world.
    destruct (App.init (starting w)) as [c w1]. cbn in E. subst c. reflexivity. }
  unfold App.on_keypress, App.button_click, bind, get_world. cbn iota.
  rewrite D. rewrite Bool.andb_false_r. split; reflexivity.
Qed.

Lemma failed_load_locks_page_witness :
  let w := page (route unreachable unreachable unreachable) false "ovo" in
  let w' := snd (App.on_DOMContentLoaded w) in
  App.on_keypress "Enter" w' = (Normal tt, w')
  /\ App.button_click w' = (Normal tt, w').
Proof.
  intro w. apply (failed_load_locks_page w (TypeError "Failed to fetch") "Enter").
  reflexivity.
Defined.

(** X15: after a successful load, a click on a query that is not blank makes
    one request only, the suggestion request: the readiness check is not
    repeated. *)
Theorem click_after_load (w : World) (b : bool) :
  fst (App.init (starting w)) = Normal b ->
  trim (input_value w) <> "" ->
  let w' := snd (App.on_DOMContentLoaded w) in
  requests (snd (App.on_click w'))
  = App.suggest_request (recommender w') (trim (input_value w)) :: requests w'.
Proof.
  intros E Hinput w'.
  destruct (App.init (starting w)) as [c w1] eqn:Erun. cbn in E. subst c.
  destruct (load_success_aux w w1 b Erun) as (F & I).
  fold w' in F, I. rewrite <- I.
  apply on_click_requests; [rewrite I; exact Hinput | exact F].
Qed.

Lemma click_after_load_witness :
  let w := page (healthy (Resolved one_recipe)) false " ovo " in
  let w' := snd (App.on_DOMContentLoaded w) in
  requests (snd (App.on_click w'))
  = App.suggest_request (recommender w') "ovo" :: requests w'.
Proof.
  intro w. apply (click_after_load w true);
    [reflexivity | intro H; discriminate H].
Defined.

(** X16: when [suggest] returns, the click listener replaces the content of
    the results area by the markup [displayResults] builds from the value
    returned; if building it throws, no card is shown and the results area
    holds the error message instead.  Either way the button is enabled
    again. *)
Theorem click_shows_rendering (w w1 : World) (recipes : JsVal) :
  trim (input_value w) <> "" ->
  App.suggest (trim (input_value w)) (busy w) = (Normal recipes, w1) ->
  results_innerHTML (snd (App.on_click w))
  = match App.render recipes with
    | Normal markup => markup
    | Throw error => html "<p class='error'>Erro: " ++ exn_message error ++ "</p>"
    end
  /\ results_appended (snd (App.on_click w)) = []
  /\ button_disabled (snd (App.on_click w)) = false.
Proof.
  intros Hinput E. rewrite (on_click_world w Hinput), E.
  destruct (App.render recipes); repeat split.
Qed.

Lemma click_shows_rendering_witness :
  let w := page (healthy (Resolved one_recipe)) true "ovo" in
  results_innerHTML (snd (App.on_click w))
  = match App.render (JArr [bolo 87]) with
    | Normal markup => markup
    | Throw error => html "<p class='error'>Erro: " ++ exn_message error ++ "</p>"
    end
  /\ results_appended (snd (App.on_click w)) = []
  /\ button_disabled (snd (App.on_click w)) = false.
Proof.
  intro w.
  apply (click_shows_rendering w (snd (App.suggest "ovo" (busy w))) (JArr [bolo 87]));
    [intro H; discriminate H | reflexivity].
Defined.

(** ** [displayResults] of app.js *)

Lemma concat_all_app (a b : list string) :
  concat_all (a ++ b) = concat_all a ++ concat_all b.
Proof.
  induction a as [| s a IH]; [reflexivity |].
  cbn. rewrite IH. clear IH.
  induction s as [| c s IHs]; [reflexivity |]. cbn. now rewrite IHs.
Qed.

Lemma map_cards_app (xs ys : list JsVal) (a b : list string) :
  App.map_cards xs = Normal a ->
  App.map_cards ys = Normal b ->
  App.map_cards (xs ++ ys) = Normal (a ++ b)%list.
Proof.
  revert a. induction xs as [| x xs IH]; intros a Ha Hb.
  - cbn in Ha. injection Ha as <-. exact Hb.
  - cbn in Ha |- *. destruct (App.recipe_card x) as [card |]; [| discriminate Ha].
    cbn in Ha |- *. destruct (App.map_cards xs) as [cards |]; [| discriminate Ha].
    cbn in Ha. injection Ha as <-. rewrite (IH cards eq_refl Hb). reflexivity.
Qed.

Lemma app_recipe_card (recipe : JsVal) :
  app_recipe recipe -> exists card, App.recipe_card recipe = Normal card.
Proof.
  intros Hr. pose proof Hr as (fields & -> & _).
  destruct (app_card_total fields Hr)
    as (title & match_ & used & missing & directions & link & _ & _ & E & _).
  eexists. exact E.
Qed.

Lemma map_cards_first_failure (good rest : list JsVal) (bad : JsVal) (e : Exn) :
  Forall app_recipe good ->
  App.recipe_card bad = Throw e ->
  App.map_cards (good ++ bad :: rest) = Throw e.
Proof.
  intros Hgood Hbad. induction Hgood as [| r good Hr _ IH].
  - cbn. now rewrite Hbad.
  - destruct (app_recipe_card r Hr) as (card & E).
    cbn [app App.map_cards]. rewrite E, IH. reflexivity.
Qed.

Lemma render_array (recipes : list JsVal) :
  recipes <> [] ->
  App.render (JArr recipes)
  = (let? cards := App.map_cards recipes in Normal (concat_all cards)).
Proof.
  destruct recipes as [| r rest]; [congruence | intros _; apply render_cards].
Qed.

(** X17: in the class-based client a list in which some recipe cannot be
    rendered shows no card at all: when the recipes before it are recipe
    objects with primitive fields and arrays of primitives, which render,
    [displayResults] throws the error of that recipe and leaves the page
    exactly as it was. *)
Theorem display_all_or_nothing
        (good rest : list JsVal) (bad : JsVal) (e : Exn) (w : World) :
  Forall app_recipe good ->
  App.recipe_card bad = Throw e ->
  App.displayResults (JArr (good ++ bad :: rest)) w = (Throw e, w).
Proof.
  intros Hgood Hbad. rewrite displayResults_run, render_array.
  - now rewrite (map_cards_first_failure good rest bad e Hgood Hbad).
  - destruct good; discriminate.
Qed.

Lemma display_all_or_nothing_witness :
  let w := page ready_service true "ovo" in
  App.displayResults (JArr ([bolo 87] ++ JNull :: [bolo 50])) w
  = (Throw (TypeError "Cannot read properties of null (reading 'title')"), w).
Proof.
  intro w. apply display_all_or_nothing; [| reflexivity].
  constructor; [| constructor].
  eexists. repeat split.
Defined.

(** X18: the markup of a list is the markup of its parts, in order: when two
    non-empty lists render, their concatenation renders to the
    concatenation of the two markups. *)
Theorem render_app (xs ys : list JsVal) (a b : string) :
  xs <> [] -> ys <> [] ->
  App.render (JArr xs) = Normal a ->
  App.render (JArr ys) = Normal b ->
  App.render (JArr (xs ++ ys)) = Normal (a ++ b).
Proof.
  intros Hx Hy Ha Hb.
  rewrite render_array in Ha, Hb by assumption.
  rewrite render_array by (destruct xs; [congruence | discriminate]).
  destruct (App.map_cards xs) as [ca |] eqn:Ea; [| discriminate Ha].
  destruct (App.map_cards ys) as [cb |] eqn:Eb; [| discriminate Hb].
  cbn in Ha, Hb. injection Ha as <-. injection Hb as <-.
  rewrite (map_cards_app xs ys ca cb Ea Eb). cbn.
  now rewrite concat_all_app.
Qed.

Lemma render_app_witness :
  exists a b,
    App.render (JArr [bolo 87]) = Normal a
    /\ App.render (JArr [bare_recipe]) = Normal b
    /\ App.render (JArr ([bolo 87] ++ [bare_recipe])) = Normal (a ++ b).
Proof.
  eexists. eexists. split; [reflexivity | split; [reflexivity |]].
  apply render_app; [discriminate | discriminate | reflexivity | reflexivity].
Defined.

(** X19: what [displayResults] does with a value that is not an array.  A
    falsy value (also [0], [false] and the empty string) shows the
    no-results placeholder; a truthy value that is not an array shows the
    placeholder when its [length] is 0 and otherwise throws, since it has
    no [map]. *)
Theorem render_non_array (v : JsVal) :
  is_array v = false ->
  (truthy v = false -> App.render v = Normal App.no_results)
  /\ (truthy v = true ->
      forall length,
        get_prop v "length" = Normal length ->
        App.render v
        = if strict_eq length (JNum 0) then Normal App.no_results
          else Throw (TypeError "recipes.map is not a function")).
Proof.
  intros Harr. split.
  - intros F. unfold App.render. rewrite F. reflexivity.
  - intros T length L. unfold App.render. rewrite T, L. cbn [negb bindC].
    destruct (strict_eq length (JNum 0)); [reflexivity |].
    destruct v; try discriminate Harr; try discriminate T; reflexivity.
Qed.

Lemma render_non_array_witness :
  App.render (JObj [("length", JNum 0)]) = Normal App.no_results
  /\ App.render (JObj [("message", JStr "no recipes")])
     = Throw (TypeError "recipes.map is not a function")
  /\ App.render (JNum 0) = Normal App.no_results.
Proof.
  split; [| split].
  - apply (proj2 (render_non_array (JObj [("length", JNum 0)]) eq_refl) eq_refl
             (JNum 0) eq_refl).
  - apply (proj2 (render_non_array (JObj [("message", JStr "no recipes")]) eq_refl)
             eq_refl JUndefined eq_refl).
  - apply (proj1 (render_non_array (JNum 0) eq_refl) eq_refl).
Defined.

Lemma map_text_names (item : string -> string) (names : list string) :
  map_text item (map JStr names) = Normal (map item names).
Proof.
  induction names as [| name rest IH]; [reflexivity |].
  cbn. rewrite IH. reflexivity.
Qed.

(** X20: the ingredient lists of the two clients, on arrays of names.  On a
    non-empty array both clients show one item per name, in order, and
    nothing else; on the empty array the class-based client shows its
    fallback item while the procedural client shows an empty list. *)
Theorem ingredient_list_items (expr kind fallback mark : string)
        (first : string) (others : list string) :
  App.ingredient_items expr kind fallback (JArr (map JStr (first :: others)))
  = Normal (concat_all
              (map (fun name => html "<li class='ingredient " ++ kind ++ html "'>"
                                  ++ name ++ "</li>") (first :: others)))
  /\ Script.ingredient_items expr kind mark (JArr (map JStr (first :: others)))
     = Normal (concat_all
                 (map (fun name => html "<li class='ingredient " ++ kind
                                     ++ html "'>" ++ mark ++ " " ++ name ++ "</li>")
                    (first :: others)))
  /\ App.ingredient_items expr kind fallback (JArr []) = Normal fallback
  /\ Script.ingredient_items expr kind mark (JArr []) = Normal "".
Proof.
  split; [| split; [| split; reflexivity]].
  - unfold App.ingredient_items. cbn [elements bindC].
    rewrite map_text_names. reflexivity.
  - unfold Script.ingredient_items. cbn [elements bindC].
    rewrite map_text_names. reflexivity.
Qed.

Lemma map_text_error (item : string -> string) (items : list JsVal) (e : Exn) :
  map_text item items = Throw e -> e = cannot_convert.
Proof.
  induction items as [| x rest IH]; intros E; [discriminate E |].
  cbn in E. destruct (to_string x) as [text | e'] eqn:Ex.
  - cbn in E. destruct (map_text item rest); [discriminate E |].
    cbn in E. injection E as <-. now apply IH.
  - cbn in E. injection E as <-. exact (to_string_error x _ Ex).
Qed.

Lemma app_items_error (expr kind fallback : string) (list : JsVal) (e : Exn) :
  App.ingredient_items expr kind fallback list = Throw e ->
  exn_name e = "TypeError".
Proof.
  unfold App.ingredient_items. intros E.
  destruct list; try discriminate E; cbn in E;
    try (injection E as <-; reflexivity).
  destruct (map_text _ items) eqn:M; [discriminate E |].
  cbn in E. injection E as <-. now rewrite (map_text_error _ _ _ M).
Qed.

Lemma app_items_non_array (expr kind fallback : string) (list : JsVal) :
  array_or_absent list = false ->
  exists e, App.ingredient_items expr kind fallback list = Throw e.
Proof.
  intros H. destruct list; try discriminate H; cbn; eexists; reflexivity.
Qed.

(** X21: an ingredient list that is present but is not an array (a string,
    a number, an object) makes the card of the class-based client throw a
    TypeError, whatever the other fields are. *)
Theorem card_rejects_non_array_list (fields : list (string * JsVal)) :
  array_or_absent (lookup "used_ingredients" fields) = false
  \/ array_or_absent (lookup "missing_ingredients" fields) = false ->
  exists e, App.recipe_card (JObj fields) = Throw e /\ exn_name e = "TypeError".
Proof.
  intros H. unfold App.recipe_card. cbn [get_prop bindC].
  destruct (to_string (lookup "title" fields)) as [title | e] eqn:Et;
    [| exists e; split; [reflexivity | now rewrite (to_string_error _ _ Et)]].
  cbn [bindC].
  destruct (to_string (lookup "match" fields)) as [match_ | e] eqn:Em;
    [| exists e; split; [reflexivity | now rewrite (to_string_error _ _ Em)]].
  cbn [bindC].
  destruct (App.ingredient_items "recipe.used_ingredients?" "has"
              App.used_fallback (lookup "used_ingredients" fields))
    as [used | e] eqn:Eu;
    [| exists e; split; [reflexivity | exact (app_items_error _ _ _ _ _ Eu)]].
  cbn [bindC].
  destruct (App.ingredient_items "recipe.missing_ingredients?" "missing"
              App.missing_fallback (lookup "missing_ingredients" fields))
    as [missing | e] eqn:Emi;
    [| exists e; split; [reflexivity | exact (app_items_error _ _ _ _ _ Emi)]].
  exfalso. destruct H as [H | H].
  - destruct (app_items_non_array "recipe.used_ingredients?" "has"
                App.used_fallback _ H) as (e & E).
    rewrite E in Eu. discriminate Eu.
  - destruct (app_items_non_array "recipe.missing_ingredients?" "missing"
                App.missing_fallback _ H) as (e & E).
    rewrite E in Emi. discriminate Emi.
Qed.

Lemma card_rejects_non_array_list_witness :
  exists e,
    App.recipe_card (JObj [("title", JStr "Bolo"); ("match", JNum 80);
                           ("used_ingredients", JStr "ovo, leite")])
    = Throw e /\ exn_name e = "TypeError".
Proof.
  apply card_rejects_non_array_list. left. reflexivity.
Defined.

(** ** The procedural client *)

Lemma appended_to_nil (w : World) : appended_to [] w = w.
Proof. destruct w. unfold appended_to. cbn. now rewrite app_nil_r. Qed.

Lemma appended_to_app (a b : list Div) (w : World) :
  appended_to b (appended_to a w) = appended_to (a ++ b) w.
Proof. unfold appended_to. cbn. now rewrite <- app_assoc. Qed.

Lemma script_recipe_card (recipe : JsVal) :
  script_recipe recipe -> exists card, Script.recipe_card recipe = Normal card.
Proof.
  intros Hr. pose proof Hr as (fields & -> & _).
  destruct (script_card_total fields Hr)
    as (title & match_ & used & missing & directions & link & _ & _ & E & _).
  eexists. exact E.
Qed.

Lemma append_cards_step (recipe : JsVal) (rest : list JsVal) (card : string)
      (w : World) :
  Script.recipe_card recipe = Normal card ->
  Script.append_cards (recipe :: rest) w
  = Script.append_cards rest (appended_to [mkDiv "recipe-card" card] w).
Proof.
  intros E. cbn [Script.append_cards]. unfold bind at 1 2, lift. rewrite E.
  reflexivity.
Qed.

Lemma append_cards_all (recipes : list JsVal) (w : World) :
  Forall script_recipe recipes ->
  exists children,
    Forall2 card_of recipes children
    /\ Script.append_cards recipes w = (Normal tt, appended_to children w).
Proof.
  intros H. revert w.
  induction H as [| r rest Hr _ IH]; intros w.
  - exists []. split; [constructor |]. cbn. now rewrite appended_to_nil.
  - destruct (script_recipe_card r Hr) as (card & E).
    destruct (IH (appended_to [mkDiv "recipe-card" card] w)) as (children & F & R).
    exists (mkDiv "recipe-card" card :: children). split.
    + constructor; [split; [reflexivity | exact E] | exact F].
    + rewrite (append_cards_step r rest card w E), R, appended_to_app.
      reflexivity.
Qed.

Lemma append_cards_until (good rest : list JsVal) (bad : JsVal) (e : Exn)
      (w : World) :
  Forall script_recipe good ->
  Script.recipe_card bad = Throw e ->
  exists children,
    Forall2 card_of good children
    /\ Script.append_cards (good ++ bad :: rest) w
       = (Throw e, appended_to children w).
Proof.
  intros H Hbad. revert w.
  induction H as [| r good Hr _ IH]; intros w.
  - exists []. split; [constructor |]. cbn [app Script.append_cards].
    unfold bind, lift. rewrite Hbad. now rewrite appended_to_nil.
  - destruct (script_recipe_card r Hr) as (card & E).
    destruct (IH (appended_to [mkDiv "recipe-card" card] w)) as (children & F & R).
    exists (mkDiv "recipe-card" card :: children). split.
    + constructor; [split; [reflexivity | exact E] | exact F].
    + cbn [app]. rewrite (append_cards_step r _ card w E), R, appended_to_app.
      reflexivity.
Qed.

Lemma script_display_array (recipe : JsVal) (rest : list JsVal) (w : World) :
  Script.displayResults (JArr (recipe :: rest)) w
  = Script.append_cards (recipe :: rest) (snd (set_results_innerHTML "" w)).
Proof.
  unfold Script.displayResults, bind at 1 2 3, lift, set_results_innerHTML at 1.
  cbn [get_prop String.eqb Ascii.eqb Bool.eqb List.length elements].
  unfold JNum. cbn [strict_eq int int_value]. rewrite saturate_zero.
  replace (Z.of_nat (S (List.length rest)) =? 0) with false
    by (symmetry; apply Z.eqb_neq; lia).
  reflexivity.
Qed.

(** X22: in the procedural client, [displayResults] on a non-empty list of
    recipe objects with primitive fields and both ingredient lists, each an
    array of primitives, clears the results area
    and appends one [recipe-card] element per recipe, in order, each holding
    the card of its recipe. *)
Theorem script_display_cards (recipe : JsVal) (rest : list JsVal) (w : World) :
  Forall script_recipe (recipe :: rest) ->
  exists children,
    Forall2 card_of (recipe :: rest) children
    /\ Script.displayResults (JArr (recipe :: rest)) w
       = (Normal tt, appended_to children (snd (set_results_innerHTML "" w))).
Proof.
  intros H. rewrite script_display_array. apply append_cards_all. exact H.
Qed.

Lemma script_display_cards_witness :
  exists children,
    Forall2 card_of [bolo 87; bolo 50] children
    /\ Script.displayResults (JArr [bolo 87; bolo 50]) (page ready_service true "ovo")
       = (Normal tt,
          appended_to children
            (snd (set_results_innerHTML "" (page ready_service true "ovo")))).
Proof.
  apply script_display_cards.
  repeat (constructor; [eexists; repeat split |]). constructor.
Defined.

(** X23: in the procedural client a recipe that cannot be rendered stops
    [displayResults] part way: when the recipes before it are recipe objects
    with primitive fields and arrays of primitives, which render, it throws
    that recipe's error, and the cards of the recipes before it, and only
    they, are left in the results area. *)
Theorem script_display_stops_part_way
        (good rest : list JsVal) (bad : JsVal) (e : Exn) (w : World) :
  Forall script_recipe good ->
  Script.recipe_card bad = Throw e ->
  exists children,
    Forall2 card_of good children
    /\ Script.displayResults (JArr (good ++ bad :: rest)) w
       = (Throw e, appended_to children (snd (set_results_innerHTML "" w))).
Proof.
  intros H Hbad.
  destruct (append_cards_until good rest bad e
              (snd (set_results_innerHTML "" w)) H Hbad) as (children & F & R).
  exists children. split; [exact F |].
  destruct good as [| g good']; cbn [app] in *; rewrite script_display_array;
    exact R.
Qed.

Lemma script_display_stops_part_way_witness :
  let w := page ready_service true "ovo" in
  exists children,
    Forall2 card_of [bolo 87] children
    /\ Script.displayResults (JArr ([bolo 87] ++ bare_recipe :: [bolo 50])) w
       = (Throw (TypeError "Cannot read properties of undefined (reading 'map')"),
          appended_to children (snd (set_results_innerHTML "" w))).
Proof.
  intro w. apply script_display_stops_part_way; [| reflexivity].
  repeat (constructor; [eexists; repeat split |]). constructor.
Defined.

Lemma same_but_results_refl (w : World) : same_but_results w w.
Proof. repeat split. Qed.

Lemma append_cards_frame (recipes : list JsVal) (w : World) :
  same_but_results w (snd (Script.append_cards recipes w)).
Proof.
  revert w. induction recipes as [| r rest IH]; intros w.
  - apply same_but_results_refl.
  - destruct (Script.recipe_card r) as [card | e] eqn:E.
    + rewrite (append_cards_step r rest card w E).
      exact (IH (appended_to [mkDiv "recipe-card" card] w)).
    + cbn [Script.append_cards]. unfold bind, lift. rewrite E.
      apply same_but_results_refl.
Qed.

(** The run of [suggestRecipes] on a query that is not blank, by the
    outcome of its [try] block. *)
Lemma suggestRecipes_run (w : World) :
  trim (input_value w) <> "" ->
  exists (outcome : Completion unit) (w1 : World),
    requests w1 = Script.suggest_request (input_value w) :: requests w
    /\ recommender w1 = recommender w
    /\ button_disabled w1 = button_disabled w
    /\ button_textContent w1 = button_textContent w
    /\ console w1 = console w
    /\ Script.suggestRecipes w
       = match outcome with
         | Normal _ => (Normal tt, w1)
         | Throw error =>
             (console_error "Erro:" error ;;
              set_results_innerHTML
                (html "<p class='error'>Erro ao buscar receitas: "
                 ++ exn_message error ++ "</p>")) w1
         end.
Proof.
  intros Hinput.
  unfold Script.suggestRecipes, bind at 1, get_world at 1. cbn iota.
  rewrite (truthy_nonempty _ Hinput). cbn [negb]. unfold try_catch.
  match goal with
  | |- context [let (_, _) := ?body w in _] =>
      destruct (body w) as [outcome w1] eqn:E
  end.
  exists outcome, w1.
  assert (F : requests w1 = Script.suggest_request (input_value w) :: requests w
              /\ recommender w1 = recommender w
              /\ button_disabled w1 = button_disabled w
              /\ button_textContent w1 = button_textContent w
              /\ console w1 = console w).
  { revert E. unfold bind, lift, fetch, get_world, set_requests,
      set_results_innerHTML, throw, ret. cbn.
    repeat (break_inner; cbn in * );
      intros E; try (injection E as <- <-; repeat split; fail).
    match goal with
    | H : Script.append_cards ?v ?x = _ |- _ =>
        pose proof (append_cards_frame v x) as F; rewrite H in F;
          cbn in F; destruct F as (_ & F2 & F3 & _ & F5 & F6 & _ & F8)
    end.
    repeat split; assumption. }
  destruct F as (F1 & F2 & F3 & F4 & F5).
  repeat (split; [assumption |]).
  destruct outcome as [[] |]; reflexivity.
Qed.

(** X24: [suggestRecipes] on a query that is not blank completes normally
    whatever the service answers, makes exactly one request, which carries
    the query as typed (not trimmed), and never touches the submit button
    or the recommender. *)
Theorem script_sends_query_as_typed (w : World) :
  trim (input_value w) <> "" ->
  fst (Script.suggestRecipes w) = Normal tt
  /\ requests (snd (Script.suggestRecipes w))
     = Script.suggest_request (input_value w) :: requests w
  /\ button_disabled (snd (Script.suggestRecipes w)) = button_disabled w
  /\ button_textContent (snd (Script.suggestRecipes w)) = button_textContent w
  /\ recommender (snd (Script.suggestRecipes w)) = recommender w.
Proof.
  intros Hinput.
  destruct (suggestRecipes_run w Hinput)
    as (outcome & w1 & F1 & F2 & F3 & F4 & _ & R).
  rewrite R. destruct outcome as [[] | error]; cbn; repeat split; assumption.
Qed.

Lemma script_sends_query_as_typed_witness :
  let w := page (fun _ => Resolved one_recipe) false "  ovo " in
  fst (Script.suggestRecipes w) = Normal tt
  /\ requests (snd (Script.suggestRecipes w)) = [Script.suggest_request "  ovo "]
  /\ button_disabled (snd (Script.suggestRecipes w)) = button_disabled w
  /\ button_textContent (snd (Script.suggestRecipes w)) = button_textContent w
  /\ recommender (snd (Script.suggestRecipes w)) = recommender w.
Proof.
  intro w. apply (script_sends_query_as_typed w). intro H; discriminate H.
Defined.

(** X25: [suggestRecipes] never leaves cards beside an error: in every
    world, either it logs nothing, or it logs one error and the results
    area then holds that error's message and no card, so the cards appended
    before a failing recipe are discarded. *)
Theorem script_error_leaves_no_cards (w : World) :
  console (snd (Script.suggestRecipes w)) = console w
  \/ exists error,
       console (snd (Script.suggestRecipes w))
       = console (snd (console_error "Erro:" error w))
       /\ results_innerHTML (snd (Script.suggestRecipes w))
          = html "<p class='error'>Erro ao buscar receitas: "
            ++ exn_message error ++ "</p>"
       /\ results_appended (snd (Script.suggestRecipes w)) = [].
Proof.
  destruct (String.eqb (trim (input_value w)) "") eqn:B.
  - left. unfold Script.suggestRecipes, bind, get_world. cbn. rewrite B.
    reflexivity.
  - apply String.eqb_neq in B.
    destruct (suggestRecipes_run w B) as (outcome & w1 & _ & _ & _ & _ & C & R).
    rewrite R. destruct outcome as [[] | error].
    + left. exact C.
    + right. exists error. cbn. rewrite C. repeat split.
Qed.

(** X26: in the procedural client a success answer whose envelope has no
    [recipes] is not shown as an empty result: reading [length] of
    [undefined] throws a TypeError, and [suggestRecipes] shows its message
    as an error, with no card. *)
Theorem script_missing_recipes_is_error
        (w : World) (response : Response) (fields : list (string * JsVal)) :
  trim (input_value w) <> "" ->
  network w (Script.suggest_request (input_value w) :: requests w)
  = Resolved response ->
  ok response = true ->
  json response = Normal (JObj fields) ->
  lookup "recipes" fields = JUndefined ->
  exists error,
    exn_name error = "TypeError"
    /\ Script.displayResults JUndefined w
       = (Throw error, snd (set_results_innerHTML "" w))
    /\ results_innerHTML (snd (Script.suggestRecipes w))
       = html "<p class='error'>Erro ao buscar receitas: "
         ++ exn_message error ++ "</p>"
    /\ results_innerHTML (snd (Script.suggestRecipes w)) <> Script.no_results
    /\ results_appended (snd (Script.suggestRecipes w)) = [].
Proof.
  intros Hinput Hnet Hok Hjson Hrecipes.
  exists (TypeError "Cannot read properties of undefined (reading 'length')").
  split; [reflexivity | split; [reflexivity |]].
  unfold Script.suggestRecipes, bind, get_world. cbn iota.
  rewrite (truthy_nonempty _ Hinput).
  unfold try_catch. cbn. rewrite Hnet. cbn. rewrite Hok. cbn.
  rewrite Hjson. cbn. rewrite Hrecipes. cbn.
  repeat split. intro H; discriminate H.
Qed.

Lemma script_missing_recipes_is_error_witness :
  let w := page (fun _ => Resolved bare_envelope) false "ovo" in
  exists error,
    exn_name error = "TypeError"
    /\ Script.displayResults JUndefined w
       = (Throw error, snd (set_results_innerHTML "" w))
    /\ results_innerHTML (snd (Script.suggestRecipes w))
       = html "<p class='error'>Erro ao buscar receitas: "
         ++ exn_message error ++ "</p>"
    /\ results_innerHTML (snd (Script.suggestRecipes w)) <> Script.no_results
    /\ results_appended (snd (Script.suggestRecipes w)) = [].
Proof.
  intro w.
  apply (script_missing_recipes_is_error w bare_envelope [("count", JNum 0)]);
    [intro H; discriminate H | reflexivity ..].
Defined.

(** ** Blank queries, conversely *)

Lemma string_of_byte (a : ascii) : string_of_bytes [byte_of a] = String a "".
Proof.
  cbn. unfold byte_of. now rewrite Nat2Z.id, ascii_nat_embedding.
Qed.

Lemma bytes_eqb_eq (a b : list Z) : bytes_eqb a b = true -> a = b.
Proof.
  revert b. induction a as [| x a IH]; intros [| y b] H; try discriminate H.
  - reflexivity.
  - cbn in H. apply andb_prop in H as [H1 H2]. apply Z.eqb_eq in H1.
    now rewrite H1, (IH b H2).
Qed.

Lemma is_space_seq (backwards : bool) (l : list Z) :
  is_space (if backwards then List.rev l else l) = true ->
  exists cp, In cp white_space_code_points
             /\ (if backwards then List.rev (utf8 cp) else utf8 cp) = l.
Proof.
  unfold is_space. intros H. apply existsb_exists in H as (cp & Hin & E).
  apply bytes_eqb_eq in E. exists cp. split; [exact Hin |].
  destruct backwards; [rewrite E; apply rev_involutive | exact E].
Qed.

Lemma strip_head_eq (backwards : bool) (a : ascii) (r1 : string) :
  strip_head backwards (String a r1)
  = let seq l := is_space (if backwards then List.rev l else l) in
    if seq [byte_of a] then strip_head backwards r1
    else match r1 with
         | EmptyString => String a r1
         | String b r2 =>
             if seq [byte_of a; byte_of b] then strip_head backwards r2
             else match r2 with
                  | EmptyString => String a r1
                  | String c r3 =>
                      if seq [byte_of a; byte_of b; byte_of c]
                      then strip_head backwards r3
                      else String a r1
                  end
         end.
Proof. reflexivity. Qed.

Lemma strip_head_split (backwards : bool) (n : nat) :
  forall s, (String.length s <= n)%nat ->
  exists p, spaces backwards p /\ s = p ++ strip_head backwards s.
Proof.
  induction n as [| n IH]; intros s L.
  - destruct s; [| cbn in L; lia]. exists "". split; [constructor | reflexivity].
  - destruct s as [| a r1]; [exists ""; split; [constructor | reflexivity] |].
    rewrite strip_head_eq. cbv zeta.
    destruct (is_space (if backwards then List.rev [byte_of a] else [byte_of a])) eqn:S1.
    { apply is_space_seq in S1 as (cp & Hin & E).
      destruct (IH r1 ltac:(cbn in L; lia)) as (p & Hp & Ep).
      exists (string_of_bytes (if backwards then List.rev (utf8 cp) else utf8 cp) ++ p).
      split; [now constructor |].
      rewrite E, string_of_byte. cbn. now rewrite <- Ep. }
    destruct r1 as [| b r2]; [exists ""; split; [constructor | reflexivity] |].
    destruct (is_space (if backwards then List.rev [byte_of a; byte_of b]
                        else [byte_of a; byte_of b])) eqn:S2.
    { apply is_space_seq in S2 as (cp & Hin & E).
      destruct (IH r2 ltac:(cbn in L; lia)) as (p & Hp & Ep).
      exists (string_of_bytes (if backwards then List.rev (utf8 cp) else utf8 cp) ++ p).
      split; [now constructor |].
      rewrite E.
      change (string_of_bytes [byte_of a; byte_of b])
        with (string_of_bytes [byte_of a] ++ string_of_bytes [byte_of b]).
      rewrite !string_of_byte. cbn. now rewrite <- Ep. }
    destruct r2 as [| c r3]; [exists ""; split; [constructor | reflexivity] |].
    destruct (is_space (if backwards then List.rev [byte_of a; byte_of b; byte_of c]
                        else [byte_of a; byte_of b; byte_of c])) eqn:S3.
    { apply is_space_seq in S3 as (cp & Hin & E).
      destruct (IH r3 ltac:(cbn in L; lia)) as (p & Hp & Ep).
      exists (string_of_bytes (if backwards then List.rev (utf8 cp) else utf8 cp) ++ p).
      split; [now constructor |].
      rewrite E.
      change (string_of_bytes [byte_of a; byte_of b; byte_of c])
        with (string_of_bytes [byte_of a]
              ++ string_of_bytes [byte_of b] ++ string_of_bytes [byte_of c]).
      rewrite !string_of_byte. cbn. now rewrite <- Ep. }
    exists "". split; [constructor | reflexivity].
Qed.

Lemma append_assoc (a b c : string) : (a ++ b) ++ c = a ++ (b ++ c).
Proof. induction a as [| x a IH]; [reflexivity |]. cbn. now rewrite IH. Qed.

Lemma append_empty (a : string) : a ++ "" = a.
Proof. induction a as [| x a IH]; [reflexivity |]. cbn. now rewrite IH. Qed.

Lemma reverse_app (a b : string) : reverse (a ++ b) = reverse b ++ reverse a.
Proof.
  induction a as [| x a IH]; cbn.
  - now rewrite append_empty.
  - now rewrite IH, append_assoc.
Qed.

Lemma reverse_involutive (a : string) : reverse (reverse a) = a.
Proof.
  induction a as [| x a IH]; [reflexivity |].
  cbn. rewrite reverse_app, IH. reflexivity.
Qed.

Lemma string_of_bytes_app (a b : list Z) :
  string_of_bytes (a ++ b) = string_of_bytes a ++ string_of_bytes b.
Proof. induction a as [| x a IH]; [reflexivity |]. cbn. now rewrite IH. Qed.

Lemma reverse_bytes (l : list Z) :
  reverse (string_of_bytes (List.rev l)) = string_of_bytes l.
Proof.
  induction l as [| x l IH]; [reflexivity |].
  cbn [List.rev]. rewrite string_of_bytes_app, reverse_app, IH. reflexivity.
Qed.

Lemma spaces_app (backwards : bool) (a b : string) :
  spaces backwards a -> spaces backwards b -> spaces backwards (a ++ b).
Proof.
  intros Ha Hb. induction Ha as [| cp s Hin _ IH]; [exact Hb |].
  rewrite append_assoc. now constructor.
Qed.

Lemma spaces_reverse (u : string) : spaces true u -> spaces false (reverse u).
Proof.
  induction 1 as [| cp s Hin _ IH]; [constructor |].
  rewrite reverse_app, reverse_bytes.
  apply spaces_app; [exact IH |].
  rewrite <- (append_empty (string_of_bytes (utf8 cp))).
  apply (spaces_more false cp "" Hin). constructor.
Qed.

Lemma spaces_blank (s : string) : spaces false s -> blank s.
Proof. induction 1; now constructor. Qed.

(** Only a blank string trims to the empty string. *)
Lemma trim_empty_blank (s : string) : trim s = "" -> blank s.
Proof.
  unfold trim, trimEnd, trimStart. intros H.
  apply spaces_blank.
  destruct (strip_head_split false (String.length s) s (le_n _)) as (p & Hp & Es).
  rewrite Es. apply spaces_app; [exact Hp |].
  set (t := strip_head false s) in *.
  assert (E : strip_head true (reverse t) = "").
  { rewrite <- (reverse_involutive (strip_head true (reverse t))), H.
    reflexivity. }
  destruct (strip_head_split true (String.length (reverse t)) (reverse t) (le_n _))
    as (q & Hq & Et).
  rewrite E, append_empty in Et.
  rewrite <- (reverse_involutive t), Et. apply spaces_reverse. exact Hq.
Qed.

(** X27: a query that is not blank is never turned away.  The procedural
    client sends it as typed; the class-based client, once ready, sends it
    trimmed; and neither shows the prompt. *)
Theorem nonblank_query_is_sent (w : World) :
  ~ blank (input_value w) ->
  requests (snd (Script.suggestRecipes w))
  = Script.suggest_request (input_value w) :: requests w
  /\ Script.suggestRecipes w <> alert "Por favor, digite alguns ingredientes!" w
  /\ (initialized (recommender w) = true ->
      requests (snd (App.on_click w))
      = App.suggest_request (recommender w) (trim (input_value w)) :: requests w
      /\ App.on_click w <> alert "Por favor, digite alguns ingredientes!" w).
Proof.
  intros Hnot.
  assert (Hinput : trim (input_value w) <> "").
  { intros E. apply Hnot. apply trim_empty_blank. exact E. }
  assert (Hneq : forall (r : Request) (l : list Request), r :: l <> l).
  { intros r l E. apply (f_equal (@List.length _)) in E. cbn in E. lia. }
  destruct (suggestRecipes_run w Hinput) as (outcome & w1 & F1 & _ & _ & _ & _ & R).
  assert (Hs : requests (snd (Script.suggestRecipes w))
               = Script.suggest_request (input_value w) :: requests w).
  { rewrite R. destruct outcome as [[] |]; exact F1. }
  split; [exact Hs | split].
  - intros E. rewrite E in Hs. cbn in Hs. symmetry in Hs. exact (Hneq _ _ Hs).
  - intros Hflag. destruct (on_click_requests w Hinput Hflag) as [Ha _].
    split; [exact Ha |].
    intros E. rewrite E in Ha. cbn in Ha. symmetry in Ha. exact (Hneq _ _ Ha).
Qed.

Lemma nonblank_query_is_sent_witness :
  let w := page (healthy (Resolved one_recipe)) true " ovo" in
  requests (snd (Script.suggestRecipes w)) = [Script.suggest_request " ovo"]
  /\ Script.suggestRecipes w <> alert "Por favor, digite alguns ingredientes!" w
  /\ (initialized (recommender w) = true ->
      requests (snd (App.on_click w)) = [App.suggest_request (recommender w) "ovo"]
      /\ App.on_click w <> alert "Por favor, digite alguns ingredientes!" w).
Proof.
  intro w. apply (nonblank_query_is_sent w).
  intros B. apply trim_blank in B. discriminate B.
Defined.

(** ** A new recommender *)

(** X28: a recommender as its constructor builds it is not ready, so its
    first [suggest] starts with the health check, whatever happens next;
    the check goes to the local service when the page is served from
    [localhost] and to the relative [/api] path otherwise. *)
Theorem new_recommender_checks_health_first
        (hostname ingredients : string) (w : World) :
  recommender w = App.new_RecipeRecommender hostname ->
  exists later,
    requests (snd (App.suggest ingredients w))
    = (later
       ++ mkRequest
            ((if String.eqb hostname "localhost"
              then "http://localhost:5000/api" else "/api") ++ "/health")
            "GET" [] None
       :: requests w)%list.
Proof.
  intros H. destruct w as [net log r input markup children disabled text al co].
  cbn in H. subst r.
  unfold App.suggest, App.ensure_initialized, App.init, App.reports_ready,
    App.health_request, App.new_RecipeRecommender.
  run_cases.
  all: first [ now exists [] | now eexists [_] | now eexists [_; _]
             | now eexists [_; _; _] ].
Qed.

Lemma new_recommender_checks_health_first_witness :
  let w := mkWorld (healthy (Resolved one_recipe)) []
             (App.new_RecipeRecommender "localhost") "ovo" "" [] false
             "Sugerir Receitas" [] [] in
  exists later,
    requests (snd (App.suggest "ovo" w))
    = (later ++ [mkRequest "http://localhost:5000/api/health" "GET" [] None])%list.
Proof.
  intro w. apply (new_recommender_checks_health_first "localhost" "ovo" w).
  reflexivity.
Defined.
